(** * usbid: the sysfs USB topology reader

    A shallow embedding of [usbid/structure.py] (the classifier based tree:
    [USB], [Bus], [Port], [Interface]) and of the two attribute readers of
    [usbid/device.py] that the specification refers to.

    Python [str] values are Rocq [string]s (the code is Python 2, a [str] is
    a byte string).  The operating system is a parameter: a [filesystem]
    record answers [os.path.isdir], [os.listdir] and [open(..).read()]; it
    stands for the file system at one instant, so one operation sees one
    state of it.  Exceptions are the [Raise] branch of [result].  Python's
    recursion limit is the [depth] argument of the two recursive traversals,
    [match_tty] and [aggregate]; running into it is [RuntimeError]. *)

From Stdlib Require Import String Ascii List ZArith Lia Bool DecimalString.
Import ListNotations.

Local Open Scope string_scope.
Local Open Scope bool_scope.

(** ** Python string operations *)

Module Py.

(** The characters the code names: ['\n'], ['\x00'], and friends. *)
Definition nl : ascii := "010"%char.
Definition nul : ascii := "000"%char.

(** Values that end up as a node's [name] or as a [key].  The code formats
    them with [str.format] ([structure.py]) or compares them with an [int]
    ([device.py]) and never inspects them otherwise, so any other object (a
    float, a bool, ...) is given by these two observations: its text under
    [format] and its [==] with the integers. *)
Inductive value : Type :=
| PyNone
| PyStr (s : string)
| PyInt (z : Z)
| PyObject (text : string) (equals : Z -> bool).

(** ['{0}'.format(v)] *)
Definition format (v : value) : string :=
  match v with
  | PyNone => "None"
  | PyStr s => s
  | PyInt z => NilZero.string_of_int (Z.to_int z)
  | PyObject text _ => text
  end.

(** [s.startswith(p)] *)
Definition startswith (s p : string) : bool := String.prefix p s.

(** [s.endswith(c)] for a one character [c]. *)
Fixpoint endswith (s : string) (c : ascii) : bool :=
  match s with
  | EmptyString => false
  | String a EmptyString => Ascii.eqb a c
  | String _ s' => endswith s' c
  end.

(** Position of the first, resp. last, occurrence of [c]. *)
Fixpoint index (c : ascii) (s : string) : option nat :=
  match s with
  | EmptyString => None
  | String a s' =>
      if Ascii.eqb a c then Some 0
      else match index c s' with Some n => Some (S n) | None => None end
  end.

Fixpoint rindex (c : ascii) (s : string) : option nat :=
  match s with
  | EmptyString => None
  | String a s' =>
      match rindex c s' with
      | Some n => Some (S n)
      | None => if Ascii.eqb a c then Some 0 else None
      end
  end.

(** [s.find(c)] and [s.rfind(c)]: the position, or [-1]. *)
Definition find (s : string) (c : ascii) : Z :=
  match index c s with Some n => Z.of_nat n | None => (-1)%Z end.

Definition rfind (s : string) (c : ascii) : Z :=
  match rindex c s with Some n => Z.of_nat n | None => (-1)%Z end.

Fixpoint drop (n : nat) (s : string) : string :=
  match n, s with
  | O, _ => s
  | S _, EmptyString => EmptyString
  | S n', String _ s' => drop n' s'
  end.

Fixpoint take (n : nat) (s : string) : string :=
  match n, s with
  | O, _ => EmptyString
  | S _, EmptyString => EmptyString
  | S n', String a s' => String a (take n' s')
  end.

(** A slice bound as Python clamps it: negative bounds count from the end. *)
Definition clamp (s : string) (i : Z) : nat :=
  if (i <? 0)%Z then Z.to_nat (Z.max 0 (Z.of_nat (String.length s) + i))
  else Z.to_nat i.

(** [s[i:]] and [s[:i]] *)
Definition slice_from (s : string) (i : Z) : string := drop (clamp s i) s.
Definition slice_to (s : string) (i : Z) : string := take (clamp s i) s.

(** [c in chars] for a character. *)
Fixpoint mem (c : ascii) (chars : string) : bool :=
  match chars with
  | EmptyString => false
  | String a chars' => Ascii.eqb a c || mem c chars'
  end.

Fixpoint lstrip (chars s : string) : string :=
  match s with
  | EmptyString => EmptyString
  | String a s' => if mem a chars then lstrip chars s' else s
  end.

Fixpoint rstrip (chars s : string) : string :=
  match s with
  | EmptyString => EmptyString
  | String a s' =>
      match rstrip chars s' with
      | EmptyString => if mem a chars then EmptyString else String a EmptyString
      | r => String a r
      end
  end.

(** [s.strip(chars)]: characters of [chars] removed from both ends. *)
Definition strip (chars s : string) : string := rstrip chars (lstrip chars s).

(** What [s.strip()] removes from a Python 2 [str]: space, tab, newline,
    carriage return, vertical tab and form feed. *)
Definition whitespace : string :=
  String " " (String "009" (String "010" (String "013"
    (String "011" (String "012" EmptyString))))).

(** [name in names] for a list of strings. *)
Definition contains (names : list string) (name : string) : bool :=
  existsb (String.eqb name) names.

End Py.

(** ** [os.path] *)

Module OsPath.

Definition sep : ascii := "/"%char.

(** [os.path.join(a, b)] of [posixpath]. *)
Definition join (a b : string) : string :=
  if Py.startswith b "/" then b
  else if String.eqb a "" || Py.endswith a sep then a ++ b
  else a ++ String sep b.

End OsPath.

(** ** Regular expressions

    The four patterns of [structure.py] have the form [^body$] and are used
    through [pattern.match(name)].  [regex] is the syntax of the bodies (with
    [Void], [Eps] and [Alt] added for the derivatives); [re_match] is
    [match] on such an anchored pattern. *)

Module Re.

Inductive regex : Type :=
| Void
| Eps
| Lit (c : ascii)          (* a literal character, also an escaped one: [\.] *)
| Digit                    (* [\d] *)
| AnyChar                  (* [.]: any character but a newline *)
| Cat (r1 r2 : regex)
| Alt (r1 r2 : regex)
| Star (r : regex).

(** [\d] on a byte string: [0-9]. *)
Definition isdigit (c : ascii) : bool :=
  (48 <=? nat_of_ascii c)%nat && (nat_of_ascii c <=? 57)%nat.

(** The strings a body matches from its first to its last character. *)
Inductive matches : regex -> string -> Prop :=
| MEps : matches Eps ""
| MLit c : matches (Lit c) (String c "")
| MDigit c : isdigit c = true -> matches Digit (String c "")
| MAnyChar c : Ascii.eqb c Py.nl = false -> matches AnyChar (String c "")
| MCat r1 r2 s1 s2 :
    matches r1 s1 -> matches r2 s2 -> matches (Cat r1 r2) (s1 ++ s2)
| MAltL r1 r2 s : matches r1 s -> matches (Alt r1 r2) s
| MAltR r1 r2 s : matches r2 s -> matches (Alt r1 r2) s
| MStarNil r : matches (Star r) ""
| MStarCons r s1 s2 :
    matches r s1 -> matches (Star r) s2 -> matches (Star r) (s1 ++ s2).

Fixpoint nullable (r : regex) : bool :=
  match r with
  | Void | Lit _ | Digit | AnyChar => false
  | Eps | Star _ => true
  | Cat r1 r2 => nullable r1 && nullable r2
  | Alt r1 r2 => nullable r1 || nullable r2
  end.

(** Brzozowski derivative of [r] by the character [c]. *)
Fixpoint deriv (c : ascii) (r : regex) : regex :=
  match r with
  | Void | Eps => Void
  | Lit a => if Ascii.eqb a c then Eps else Void
  | Digit => if isdigit c then Eps else Void
  | AnyChar => if Ascii.eqb c Py.nl then Void else Eps
  | Cat r1 r2 =>
      if nullable r1 then Alt (Cat (deriv c r1) r2) (deriv c r2)
      else Cat (deriv c r1) r2
  | Alt r1 r2 => Alt (deriv c r1) (deriv c r2)
  | Star r1 => Cat (deriv c r1) (Star r1)
  end.

(** Does the body match the whole of [s]? *)
Fixpoint fullmatch (r : regex) (s : string) : bool :=
  match s with
  | EmptyString => nullable r
  | String c s' => fullmatch (deriv c r) s'
  end.

(** [s] without its last character, when that is a newline. *)
Fixpoint chomp (s : string) : option string :=
  match s with
  | EmptyString => None
  | String a EmptyString => if Ascii.eqb a Py.nl then Some "" else None
  | String a s' =>
      match chomp s' with Some t => Some (String a t) | None => None end
  end.

(** [re.compile("^body$").match(s)] as a truth value.  [^] holds at the
    start, where [match] begins anyway; [$] holds at the end of the string
    and also just before a newline that ends the string. *)
Definition re_match (body : regex) (s : string) : bool :=
  fullmatch body s
  || match chomp s with Some s' => fullmatch body s' | None => false end.

(** [re.compile(body).match(s)] for a pattern that does not end in [$]: the
    body matches some prefix of [s]. *)
Fixpoint prefix_match (r : regex) (s : string) : bool :=
  nullable r
  || match s with
     | EmptyString => false
     | String c s' => prefix_match (deriv c r) s'
     end.

End Re.

(** ** Exceptions and the operating system *)

Inductive exn : Type :=
| KeyError (key : Py.value)
| ValueError (msg : string)
| OSError
| IOError
| AttributeError (attr : string)
| RuntimeError.          (* maximum recursion depth exceeded *)

Inductive result (A : Type) : Type :=
| Ok (a : A)
| Raise (e : exn).

Arguments Ok {A} a.
Arguments Raise {A} e.

Definition bind {A B : Type} (m : result A) (k : A -> result B) : result B :=
  match m with
  | Ok a => k a
  | Raise e => Raise e
  end.

Notation "x <- m ;; k" := (bind m (fun x => k))
  (at level 61, m at next level, right associativity).

(** Why [open(path, 'r')] or the [read] after it fails; Python 2 raises
    [IOError] for each of them. *)
Inductive io_failure : Type :=
| NoSuchFile
| PermissionDenied
| IsADirectory
| InputOutputError.

(** The file system as the code sees it, at one instant: [listdir] is [None]
    where [os.listdir] raises [OSError]. *)
Record filesystem : Type := {
  isdir : string -> bool;
  listdir : string -> option (list string);
  read : string -> io_failure + string
}.

(** ** structure.py *)

Import Re.

Declare Scope regex_scope.
Delimit Scope regex_scope with re.
Notation "r1 ~> r2" := (Cat r1 r2)
  (at level 60, right associativity) : regex_scope.

Definition USB_FS_ROOT : string := "/sys/bus/usb/devices".

(** ["^usb\d$"] *)
Definition IS_BUS : regex :=
  (Lit "u" ~> Lit "s" ~> Lit "b" ~> Digit)%re.

(** ["^\d-\d$"] *)
Definition IS_BUS_PORT : regex :=
  (Digit ~> Lit "-" ~> Digit)%re.

(** ["^\d-\d(\.\d)*$"] *)
Definition IS_SUB_PORT : regex :=
  (Digit ~> Lit "-" ~> Digit ~> Star (Lit "." ~> Digit))%re.

(** ["^\d-\d(\.\d)*:\d.\d$"]: the dot between the last two digits is not
    escaped in the source. *)
Definition IS_INTERFACE : regex :=
  (Digit ~> Lit "-" ~> Digit ~> Star (Lit "." ~> Digit)
     ~> Lit ":" ~> Digit ~> AnyChar ~> Digit)%re.

(** The container classes.  A node keeps its [name] (the key it was fetched
    by), its [parent] and its [fs_path]. *)
Inductive node : Type :=
| USB (fs_path : string)
| Bus (name : Py.value) (parent : node) (fs_path : string)
| Port (name : Py.value) (parent : node) (fs_path : string).

Inductive interface : Type :=
| Interface (fs_path : string).

Definition fs_path (self : node) : string :=
  match self with
  | USB p | Bus _ _ p | Port _ _ p => p
  end.

Definition name (self : node) : Py.value :=
  match self with
  | USB _ => Py.PyNone
  | Bus n _ _ | Port n _ _ => n
  end.

Definition iface_fs_path (self : interface) : string :=
  match self with Interface p => p end.

(** [FSLocation.fs_name]: what follows the last separator; [None] when the
    path has no separator. *)
Definition fs_name (path : string) : Py.value :=
  if (-1 <? Py.find path OsPath.sep)%Z
  then Py.PyStr (Py.slice_from path (Py.rfind path OsPath.sep + 1))
  else Py.PyNone.

(** [FSLocation.fs_parent] *)
Definition fs_parent (path : string) : Py.value :=
  if (-1 <? Py.find path OsPath.sep)%Z
  then Py.PyStr (Py.slice_to path (Py.rfind path OsPath.sep))
  else Py.PyNone.

Section Structure.

Variable fs : filesystem.

(** *** Constructors *)

Definition USB_init (path : string) : node := USB path.

Definition Bus_init (name : Py.value) (parent : node) (path : string)
  : result node :=
  if negb (isdir fs path) then Raise (ValueError "Invalid path given")
  else Ok (Bus name parent path).

Definition Port_init (name : Py.value) (parent : node) (path : string)
  : result node :=
  if negb (isdir fs path) then Raise (ValueError "Invalid path given")
  else Ok (Port name parent path).

Definition Interface_init (path : string) : result interface :=
  if negb (isdir fs path) then Raise (ValueError "Invalid path given")
  else Ok (Interface path).

(** *** [__iter__]: the keys, in the order of the listing *)

Definition os_listdir (path : string) : result (list string) :=
  match listdir fs path with
  | Some children => Ok children
  | None => Raise OSError
  end.

Definition USB_iter (self : node) : result (list string) :=
  children <- os_listdir (fs_path self) ;;
  Ok (map (fun child => Py.slice_from child 3)
          (filter (re_match IS_BUS) children)).

Definition Bus_iter (self : node) : result (list string) :=
  children <- os_listdir (fs_path self) ;;
  Ok (map (fun child => Py.slice_from child (Py.find child "-" + 1))
          (filter (re_match IS_BUS_PORT) children)).

Definition Port_iter (self : node) : result (list string) :=
  children <- os_listdir (fs_path self) ;;
  Ok (map (fun child => Py.slice_from child (Py.rfind child "." + 1))
          (filter (re_match IS_SUB_PORT) children)).

(** *** [__getitem__] *)

Definition USB_child_path (self : node) (key : Py.value) : string :=
  OsPath.join (fs_path self) ("usb" ++ Py.format key).

Definition Bus_child_path (self : node) (key : Py.value) : string :=
  OsPath.join (fs_path self)
              (Py.format (name self) ++ "-" ++ Py.format key).

Definition Port_child_path (self : node) (key : Py.value) : string :=
  OsPath.join (fs_path self)
              (Py.format (fs_name (fs_path self)) ++ "." ++ Py.format key).

Definition USB_getitem (self : node) (key : Py.value) : result node :=
  let bus_path := USB_child_path self key in
  if negb (isdir fs bus_path) then Raise (KeyError key)
  else Bus_init key self bus_path.

Definition Bus_getitem (self : node) (key : Py.value) : result node :=
  let port_path := Bus_child_path self key in
  if negb (isdir fs port_path) then Raise (KeyError key)
  else Port_init key self port_path.

Definition Port_getitem (self : node) (key : Py.value) : result node :=
  let port_path := Port_child_path self key in
  if negb (isdir fs port_path) then Raise (KeyError key)
  else Port_init key self port_path.

(** The node [__getitem__] builds for [key]: a [Bus] below the root, a
    [Port] below a bus or a port. *)
Definition USB_child (self : node) (key : Py.value) : node :=
  Bus key self (USB_child_path self key).

Definition Bus_child (self : node) (key : Py.value) : node :=
  Port key self (Bus_child_path self key).

Definition Port_child (self : node) (key : Py.value) : node :=
  Port key self (Port_child_path self key).

(** *** Method dispatch on the class of [self] *)

Definition child (self : node) (key : Py.value) : node :=
  match self with
  | USB _ => USB_child self key
  | Bus _ _ _ => Bus_child self key
  | Port _ _ _ => Port_child self key
  end.

Definition iter (self : node) : result (list string) :=
  match self with
  | USB _ => USB_iter self
  | Bus _ _ _ => Bus_iter self
  | Port _ _ _ => Port_iter self
  end.

Definition child_path (self : node) (key : Py.value) : string :=
  match self with
  | USB _ => USB_child_path self key
  | Bus _ _ _ => Bus_child_path self key
  | Port _ _ _ => Port_child_path self key
  end.

Definition getitem (self : node) (key : Py.value) : result node :=
  match self with
  | USB _ => USB_getitem self key
  | Bus _ _ _ => Bus_getitem self key
  | Port _ _ _ => Port_getitem self key
  end.

(** *** [Container]: [keys], [values], [get] *)

Definition keys (self : node) : result (list string) := iter self.

Fixpoint getitems (self : node) (ks : list string) : result (list node) :=
  match ks with
  | [] => Ok []
  | key :: rest =>
      child <- getitem self (Py.PyStr key) ;;
      children <- getitems self rest ;;
      Ok (child :: children)
  end.

(** [[self[key] for key in self]] *)
Definition values (self : node) : result (list node) :=
  ks <- iter self ;;
  getitems self ks.

(** [get(key, default)]: only [KeyError] is caught. *)
Definition get (self : node) (key : Py.value) (default : option node)
  : result (option node) :=
  match getitem self key with
  | Ok child => Ok (Some child)
  | Raise (KeyError _) => Ok default
  | Raise e => Raise e
  end.

(** *** [InterfaceProvider.interfaces] *)

Definition isinstance_InterfaceProvider (self : node) : bool :=
  match self with
  | USB _ => false
  | Bus _ _ _ | Port _ _ _ => true
  end.

Fixpoint interfaces_loop (path : string) (children : list string)
         (ifaces : list interface) : result (list interface) :=
  match children with
  | [] => Ok ifaces
  | child :: rest =>
      if re_match IS_INTERFACE child then
        iface <- Interface_init (OsPath.join path child) ;;
        interfaces_loop path rest (ifaces ++ [iface])
      else interfaces_loop path rest ifaces
  end.

Definition interfaces (self : node) : result (list interface) :=
  children <- os_listdir (fs_path self) ;;
  interfaces_loop (fs_path self) children [].

(** *** [Interface.tty] *)

(** The loop of [match_tty] over one listing; [recurse] is the recursive
    call. *)
Fixpoint match_tty_loop (recurse : string -> result (option string))
         (path : string) (children : list string)
  : result (option string) :=
  match children with
  | [] => Ok None
  | child :: rest =>
      if negb (Py.startswith child "tty") then
        match_tty_loop recurse path rest
      else if negb (String.eqb child "tty") then Ok (Some child)
      else recurse (OsPath.join path child)
  end.

Fixpoint match_tty (depth : nat) (path : string)
  : result (option string) :=
  match depth with
  | O => Raise RuntimeError
  | S depth' =>
      children <- os_listdir path ;;
      match_tty_loop (match_tty depth') path children
  end.

Definition Interface_tty (depth : nat) (self : interface)
  : result (option string) :=
  match_tty depth (iface_fs_path self).

(** *** [AggregatedInterfaces.aggregated_interfaces] *)

(** [for iface in child.interfaces: ...] with the list [ifaces] threaded
    through. *)
Fixpoint collect_loop (tty : bool) (depth : nat)
         (found : list interface) (ifaces : list interface)
  : result (list interface) :=
  match found with
  | [] => Ok ifaces
  | iface :: rest =>
      if tty then
        t <- Interface_tty depth iface ;;
        match t with
        | None => collect_loop tty depth rest ifaces
        | Some _ => collect_loop tty depth rest (ifaces ++ [iface])
        end
      else collect_loop tty depth rest (ifaces ++ [iface])
  end.

Definition collect (tty : bool) (depth : nat) (child : node)
           (ifaces : list interface) : result (list interface) :=
  if isinstance_InterfaceProvider child then
    found <- interfaces child ;;
    collect_loop tty depth found ifaces
  else Ok ifaces.

(** The body of [for child in node.values(): ...]; [recurse] is the recursive
    call [aggregate(child, ifaces)].  The list [ifaces] the source appends
    to is passed in and handed back. *)
Fixpoint aggregate_loop
         (collect_child recurse : node -> list interface -> result (list interface))
         (children : list node) (ifaces : list interface)
  : result (list interface) :=
  match children with
  | [] => Ok ifaces
  | child :: rest =>
      ifaces1 <- collect_child child ifaces ;;
      ifaces2 <- recurse child ifaces1 ;;
      aggregate_loop collect_child recurse rest ifaces2
  end.

(** The local function [aggregate(node, ifaces)]. *)
Fixpoint aggregate (tty : bool) (depth : nat) (self : node)
         (ifaces : list interface) : result (list interface) :=
  match depth with
  | O => Raise RuntimeError
  | S depth' =>
      children <- values self ;;
      aggregate_loop (collect tty depth') (aggregate tty depth')
                     children ifaces
  end.

(** Only [USB] mixes [AggregatedInterfaces] in. *)
Definition has_aggregated_interfaces (self : node) : bool :=
  match self with
  | USB _ => true
  | Bus _ _ _ | Port _ _ _ => false
  end.

Definition aggregated_interfaces (depth : nat) (self : node) (tty : bool)
  : result (list interface) :=
  if has_aggregated_interfaces self then aggregate tty depth self []
  else Raise (AttributeError "aggregated_interfaces").

(** *** [FileAttributes.__getattribute__] *)

Definition Bus_file_attributes : list string :=
  [ "authorized"; "authorized_default"; "avoid_reset_quirk"; "bcdDevice";
    "bConfigurationValue"; "bDeviceClass"; "bDeviceProtocol";
    "bDeviceSubClass"; "bmAttributes"; "bMaxPacketSize0"; "bMaxPower";
    "bNumConfigurations"; "bNumInterfaces"; "busnum"; "dev"; "devnum";
    "devpath"; "idProduct"; "idVendor"; "ltm_capable"; "manufacturer";
    "maxchild"; "product"; "quirks"; "removable"; "serial"; "speed";
    "uevent"; "urbnum"; "version" ].

Definition Port_file_attributes : list string :=
  [ "authorized"; "avoid_reset_quirk"; "bcdDevice";
    "bConfigurationValue"; "bDeviceClass"; "bDeviceProtocol";
    "bDeviceSubClass"; "bmAttributes"; "bMaxPacketSize0"; "bMaxPower";
    "bNumConfigurations"; "bNumInterfaces"; "busnum"; "dev"; "devnum";
    "devpath"; "idProduct"; "idVendor"; "ltm_capable"; "manufacturer";
    "maxchild"; "product"; "quirks"; "removable"; "serial"; "speed";
    "uevent"; "urbnum"; "version" ].

Definition Interface_file_attributes : list string :=
  [ "bAlternateSetting"; "bInterfaceClass"; "bInterfaceNumber";
    "bInterfaceProtocol"; "bInterfaceSubClass"; "bNumEndpoints";
    "interface"; "modalias"; "supports_autosuspend"; "uevent" ].

(** What an attribute access evaluates to: the value of an attribute file
    ([None] when it could not be read), or the attribute the object has
    under that name. *)
Inductive attribute : Type :=
| FileValue (v : option string)
| ObjectAttribute (name : string).

(** [object.__getattribute__(self, name)], the interpreter's lookup on the
    object at hand: it returns the attribute of that name or raises
    [AttributeError] when the object has none. *)
Variable object_getattribute : string -> result attribute.

(** [file.read().strip('\n').strip()] *)
Definition clean (content : string) : string :=
  Py.strip Py.whitespace (Py.strip (String Py.nl "") content).

Definition FileAttributes_getattribute (file_attributes : list string)
           (path : string) (name : string) : result attribute :=
  if Py.contains file_attributes name then
    match read fs (OsPath.join path name) with
    | inr content => Ok (FileValue (Some (clean content)))
    | inl _ => Ok (FileValue None)        (* except IOError: return None *)
    end
  else object_getattribute name.

Definition file_attributes (self : node) : list string :=
  match self with
  | USB _ => []
  | Bus _ _ _ => Bus_file_attributes
  | Port _ _ _ => Port_file_attributes
  end.

(** Attribute access on a [Bus] or [Port]; [USB] has no [FileAttributes]. *)
Definition getattribute (self : node) (name : string) : result attribute :=
  match self with
  | USB _ => object_getattribute name
  | Bus _ _ _ | Port _ _ _ =>
      FileAttributes_getattribute (file_attributes self) (fs_path self) name
  end.

Definition Interface_getattribute (self : interface) (name : string)
  : result attribute :=
  FileAttributes_getattribute Interface_file_attributes
                              (iface_fs_path self) name.

(** ** device.py: the two attribute readers of [DeviceNode] *)

(** [fio.read().strip("\n\x00")]; a failing [open] is not caught. *)
Definition DeviceNode_read (path attr : string) : result string :=
  match read fs (OsPath.join path attr) with
  | inr content =>
      Ok (Py.strip (String Py.nl (String Py.nul "")) content)
  | inl _ => Raise IOError
  end.

Definition DeviceNode_idVendor (path : string) : result string :=
  DeviceNode_read path "idVendor".

Definition DeviceNode_idProduct (path : string) : result string :=
  DeviceNode_read path "idProduct".

(** [".*:\d{1}.\d{1}"], used through [TTY.match]. *)
Definition TTY : regex :=
  (Star AnyChar ~> Lit ":" ~> Digit ~> AnyChar ~> Digit)%re.

(** [DeviceNode.tty]: the first entry starting with [tty] in the first
    directory named like an interface that has one. *)
Fixpoint DeviceNode_tty_inner (filenames : list string) : option string :=
  match filenames with
  | [] => None
  | filename :: rest =>
      if Py.startswith filename "tty" then Some filename
      else DeviceNode_tty_inner rest
  end.

Fixpoint DeviceNode_tty_loop (path : string) (filenames : list string)
  : result (option string) :=
  match filenames with
  | [] => Ok None
  | filename :: rest =>
      if prefix_match TTY filename then
        inner <- os_listdir (OsPath.join path filename) ;;
        match DeviceNode_tty_inner inner with
        | Some found => Ok (Some found)
        | None => DeviceNode_tty_loop path rest
        end
      else DeviceNode_tty_loop path rest
  end.

Definition DeviceNode_tty (path : string) : result (option string) :=
  filenames <- os_listdir path ;;
  DeviceNode_tty_loop path filenames.

End Structure.


(** ** The subtree below a node

    The nodes a depth-first walk visits below [self], each parent before its
    own children, the children in the order [values] gives them. *)

Inductive descendants (fs : filesystem) : node -> list node -> Prop :=
| descendants_of self children below :
    values fs self = Ok children ->
    descendants_list fs children below ->
    descendants fs self below
with descendants_list (fs : filesystem) : list node -> list node -> Prop :=
| descendants_nil : descendants_list fs [] []
| descendants_cons child rest below_child below_rest :
    descendants fs child below_child ->
    descendants_list fs rest below_rest ->
    descendants_list fs (child :: rest) (child :: below_child ++ below_rest).

Scheme descendants_mut := Minimality for descendants Sort Prop
  with descendants_list_mut := Minimality for descendants_list Sort Prop.

(** ** Names and keys as the specification words them *)

(** A digit run: one digit or more. *)
Fixpoint all_digits (s : string) : bool :=
  match s with
  | EmptyString => true
  | String c s' => isdigit c && all_digits s'
  end.

Definition digit_run (s : string) : bool :=
  negb (String.eqb s "") && all_digits s.

(** A coordinate that is syntactically valid: a number that is not negative,
    given as an integer or in digits. *)
Definition well_formed_key (key : Py.value) : bool :=
  match key with
  | Py.PyInt z => (0 <=? z)%Z
  | Py.PyStr s => digit_run s
  | Py.PyNone => false
  | Py.PyObject _ _ => false
  end.

(** The [KeyError] outcome: the requested child is not there. *)
Definition is_KeyError {A : Type} (r : result A) : bool :=
  match r with
  | Raise (KeyError _) => true
  | _ => false
  end.

(** ** File systems given by a table, for the examples *)

Inductive entry : Type :=
| Directory (children : list string)
| File (content : string).

Fixpoint lookup (table : list (string * entry)) (path : string)
  : option entry :=
  match table with
  | [] => None
  | (p, e) :: rest => if String.eqb p path then Some e else lookup rest path
  end.

Definition table_fs (table : list (string * entry)) : filesystem :=
  {| isdir path :=
       match lookup table path with
       | Some (Directory _) => true
       | _ => false
       end;
     listdir path :=
       match lookup table path with
       | Some (Directory children) => Some children
       | _ => None
       end;
     read path :=
       match lookup table path with
       | Some (File content) => inr content
       | Some (Directory _) => inl IsADirectory
       | None => inl NoSuchFile
       end |}.

(** The tree of the module's docstring, with a serial adapter on port 2 of
    the hub [1-1]. *)
Definition sysfs : filesystem :=
  table_fs
    [ ("/sys/bus/usb/devices", Directory ["usb1"]);
      ("/sys/bus/usb/devices/usb1",
        Directory ["1-0:1.0"; "1-1"; "idVendor"; "power"]);
      ("/sys/bus/usb/devices/usb1/idVendor", File ("1d6b" ++ String Py.nl ""));
      ("/sys/bus/usb/devices/usb1/power", Directory []);
      ("/sys/bus/usb/devices/usb1/1-0:1.0", Directory []);
      ("/sys/bus/usb/devices/usb1/1-1",
        Directory ["1-1:1.0"; "1-1.2"; "driver"]);
      ("/sys/bus/usb/devices/usb1/1-1/driver", Directory []);
      ("/sys/bus/usb/devices/usb1/1-1/1-1:1.0", Directory ["ep_81"]);
      ("/sys/bus/usb/devices/usb1/1-1/1-1.2", Directory ["1-1.2:1.0"]);
      ("/sys/bus/usb/devices/usb1/1-1/1-1.2/1-1.2:1.0",
        Directory ["ep_02"; "tty"]);
      ("/sys/bus/usb/devices/usb1/1-1/1-1.2/1-1.2:1.0/tty",
        Directory ["ttyUSB0"]);
      ("/sys/bus/usb/devices/usb1/1-1/1-1.2/1-1.2:1.0/tty/ttyUSB0",
        Directory []) ].

(** A bus with one device and no interface directory at all. *)
Definition barefs : filesystem :=
  table_fs
    [ ("/sys/bus/usb/devices", Directory ["usb1"]);
      ("/sys/bus/usb/devices/usb1", Directory ["1-1"; "power"]);
      ("/sys/bus/usb/devices/usb1/1-1", Directory ["power"]) ].

Definition usb : node := USB_init USB_FS_ROOT.
Definition bus1 : node :=
  Bus (Py.PyStr "1") usb "/sys/bus/usb/devices/usb1".
Definition port1 : node :=
  Port (Py.PyStr "1") bus1 "/sys/bus/usb/devices/usb1/1-1".
Definition port1_2 : node :=
  Port (Py.PyStr "2") port1 "/sys/bus/usb/devices/usb1/1-1/1-1.2".

(** The file content ["0403\n\x00"]. *)
Definition content_0403_nl_nul : string :=
  "0403" ++ String Py.nl (String Py.nul "").

(** A hub with more than nine ports on bus 1, some stray entries, and an
    attribute file that ends in a NUL byte. *)
Definition bigfs : filesystem :=
  table_fs
    [ ("/sys/bus/usb/devices", Directory ["usb1"]);
      ("/sys/bus/usb/devices/usb1", Directory ["1-1"; "1-10"; "idVendor"]);
      ("/sys/bus/usb/devices/usb1/idVendor",
        File content_0403_nl_nul);
      ("/sys/bus/usb/devices/usb1/1-10", Directory []);
      ("/sys/bus/usb/devices/usb1/1-1",
        Directory ["1-1.2"; "1-1.10"; "1-1:1.0"; "2-3:1.0"; "1-1:1x0"]);
      ("/sys/bus/usb/devices/usb1/1-1/1-1.2", Directory []);
      ("/sys/bus/usb/devices/usb1/1-1/1-1.10", Directory []);
      ("/sys/bus/usb/devices/usb1/1-1/1-1:1.0", Directory []);
      ("/sys/bus/usb/devices/usb1/1-1/2-3:1.0", Directory []);
      ("/sys/bus/usb/devices/usb1/1-1/1-1:1x0", Directory []) ].

(** An interface whose [tty] is a device name, found within [bound] nested
    calls. *)
Definition resolves (fs : filesystem) (bound : nat) (i : interface) : Prop :=
  exists dev, Interface_tty fs bound i = Ok (Some dev).

(** A first-level port name as the specification words it: the bus number,
    a dash and a port number, both digit runs. *)
Definition first_level_port_name (bus port name : string) : Prop :=
  digit_run bus = true /\ digit_run port = true /\
  name = bus ++ "-" ++ port.

(** A nested port name as the specification words it: the parent's own name
    extended by a dot and a port number. *)
Definition nested_port_name (parent_name port name : string) : Prop :=
  digit_run port = true /\ name = parent_name ++ "." ++ port.

(** An interface name as the specification words it: the parent's path
    string, a colon, and two digit runs with a dot between them. *)
Definition interface_name_of (parent_path name : string) : Prop :=
  exists config number,
    digit_run config = true /\ digit_run number = true /\
    name = parent_path ++ ":" ++ config ++ "." ++ number.

(** The characters of a port name: digits, the dash and the dot. *)
Definition port_chars : string := "0123456789-.".

(** Is every character of [s] one of [chars]? *)
Fixpoint all_in (chars s : string) : bool :=
  match s with
  | EmptyString => true
  | String a s' => Py.mem a chars && all_in chars s'
  end.

Definition first_char (s : string) : option ascii :=
  match s with
  | EmptyString => None
  | String a _ => Some a
  end.

Fixpoint last_char (s : string) : option ascii :=
  match s with
  | EmptyString => None
  | String a EmptyString => Some a
  | String _ s' => last_char s'
  end.

(** ** More of structure.py: [Container.items] *)

Definition parent (self : node) : option node :=
  match self with
  | USB _ => None
  | Bus _ p _ | Port _ p _ => Some p
  end.

(** [[(key, self[key]) for key in self]] *)
Fixpoint getpairs (fs : filesystem) (self : node) (ks : list string)
  : result (list (string * node)) :=
  match ks with
  | [] => Ok []
  | key :: rest =>
      child <- getitem fs self (Py.PyStr key) ;;
      pairs <- getpairs fs self rest ;;
      Ok ((key, child) :: pairs)
  end.

Definition items (fs : filesystem) (self : node)
  : result (list (string * node)) :=
  ks <- iter fs self ;;
  getpairs fs self ks.

(** ** device.py: [DeviceNode]

    The older tree.  Its exceptions and results are kept apart from those of
    [structure.py]: [IndexError] occurs here only, and [__getitem__] answers
    with a node, with the string ["key not found"], or with [None]. *)

Module Device.

Inductive error : Type :=
| OSError
| IndexError
| ValueError
| AttributeError (attr : string).

Inductive outcome (A : Type) : Type :=
| Return (a : A)
| Throw (e : error).

Arguments Return {A} a.
Arguments Throw {A} e.

Definition and_then {A B : Type} (m : outcome A) (k : A -> outcome B)
  : outcome B :=
  match m with
  | Return a => k a
  | Throw e => Throw e
  end.

Definition fmap {A B : Type} (f : A -> B) (m : outcome A) : outcome B :=
  and_then m (fun a => Return (f a)).

(** ["^\d{1}-{1}\d{1}$"] *)
Definition PARENT : regex := (Digit ~> Lit "-" ~> Digit)%re.

(** ["^[0-9\-\.]+$"] *)
Definition CHILD_char : regex := Alt Digit (Alt (Lit "-") (Lit ".")).
Definition CHILD : regex := (CHILD_char ~> Star CHILD_char)%re.

(** The number a digit string writes. *)
Definition digit_value (c : ascii) : Z := Z.of_nat (nat_of_ascii c) - 48.

Fixpoint decimal (acc : Z) (s : string) : Z :=
  match s with
  | EmptyString => acc
  | String c s' => decimal (10 * acc + digit_value c) s'
  end.

(** [int(s)] on the strings the code passes to it, the text after the last
    dash or dot of a name [PARENT] or [CHILD] matched (digits and dashes,
    with a final newline at most): white space at the ends is dropped, then
    comes an optional sign and a digit run; anything else is a [ValueError],
    here [None].  (Python 2 also takes blanks between the sign and the
    digits; no such string reaches [int] here.) *)
Definition int (s : string) : option Z :=
  match Py.strip Py.whitespace s with
  | EmptyString => None
  | String c d =>
      if Ascii.eqb c "-" then
        if digit_run d then Some (- decimal 0 d)%Z else None
      else if Ascii.eqb c "+" then
        if digit_run d then Some (decimal 0 d) else None
      else if digit_run (String c d) then Some (decimal 0 (String c d))
      else None
  end.

Definition to_int (s : string) : outcome Z :=
  match int s with
  | Some z => Return z
  | None => Throw ValueError
  end.

(** [s.rsplit(c, 1)[1]]: what follows the last [c]; without a [c] in [s] the
    list has one element and the index raises. *)
Definition rsplit_last (s : string) (c : ascii) : outcome string :=
  match Py.rindex c s with
  | Some n => Return (Py.drop (S n) s)
  | None => Throw IndexError
  end.

(** A [DeviceNode].  The module passes an id or a path string as [parent];
    a caller of the constructor may pass a node.  (The [usbinfo] field plays
    no part in the methods below and is left out.) *)
Inductive DeviceNode : Type :=
| Node (own_id : Py.value) (fs_path : string) (parent : parent_ref)
       (is_root : bool)
with parent_ref : Type :=
| Value (v : Py.value)
| Parent (n : DeviceNode).

Scheme DeviceNode_mut := Induction for DeviceNode Sort Prop
  with parent_ref_mut := Induction for parent_ref Sort Prop.

Definition own_id (self : DeviceNode) : Py.value :=
  match self with Node i _ _ _ => i end.

Definition fs_path (self : DeviceNode) : string :=
  match self with Node _ p _ _ => p end.

Definition parent (self : DeviceNode) : parent_ref :=
  match self with Node _ _ p _ => p end.

Definition is_root (self : DeviceNode) : bool :=
  match self with Node _ _ _ r => r end.

(** [DeviceNode.path]: the ids from the root down to [self]. *)
Fixpoint path_loop (current : DeviceNode) (path : list Py.value)
  : outcome (list Py.value) :=
  match current with
  | Node _ _ up root =>
      if root then Return path
      else match up with
           | Parent above => path_loop above (own_id above :: path)
           | Value _ => Throw (AttributeError "own_id")
           end
  end.

Definition path (self : DeviceNode) : outcome (list Py.value) :=
  path_loop self [own_id self].

(** [DeviceNode(child_id, os.path.join(self.fs_path, node), self.fs_path)] *)
Definition make (self : DeviceNode) (id : Py.value) (node : string)
  : DeviceNode :=
  Node id (OsPath.join (fs_path self) node)
       (Value (Py.PyStr (fs_path self))) false.

(** [key == int(node_r)], the number already computed: an [int] equals the
    same [int], [None] and a [str] equal no number, and another object (the
    float [4.0], [True]) says so itself. *)
Definition key_is (key : Py.value) (z : Z) : bool :=
  match key with
  | Py.PyInt k => Z.eqb k z
  | Py.PyObject _ equals => equals z
  | Py.PyNone | Py.PyStr _ => false
  end.

(** What [__getitem__] returns. *)
Inductive fetched : Type :=
| Found (dev : DeviceNode)
| KeyNotFound               (* the string ["key not found"] *)
| Nothing.                  (* [None]: the loop ran out *)

(** The number after the last dot of [node], when there is one. *)
Definition last_number (node : string) : outcome Z :=
  and_then (rsplit_last node ".") to_int.

(** Is [node] the entry [__getitem__] stops at for [key], by its second
    test? *)
Definition fetches (key : Py.value) (node : string) : bool :=
  re_match CHILD node
  && match last_number node with
     | Return z => key_is key z
     | Throw _ => false
     end.

(** An entry that is no [<digit>-<digit>] name and, if made of digits,
    dashes and dots, ends in a dot and a number. *)
Definition plain_child (node : string) : bool :=
  negb (re_match PARENT node)
  && (negb (re_match CHILD node)
      || match last_number node with
         | Return _ => true
         | Throw _ => false
         end).

(** The entry [node] carries the number [z] for [__getitem__]: by its first
    test, after the last dash, or by its second, after the last dot. *)
Definition numbered (node : string) (z : Z) : Prop :=
  (re_match PARENT node = true /\
   and_then (rsplit_last node "-") to_int = Return z) \/
  (re_match CHILD node = true /\ last_number node = Return z).

Section Methods.

Variable fs : filesystem.

Definition os_listdir (p : string) : outcome (list string) :=
  match listdir fs p with
  | Some nodes => Return nodes
  | None => Throw OSError
  end.

Fixpoint keys_loop (self : DeviceNode) (nodes : list string) (res : list Z)
  : outcome (list Z) :=
  match nodes with
  | [] => Return res
  | node :: rest =>
      if is_root self && re_match PARENT node then
        and_then (rsplit_last node "-") (fun node_r =>
        and_then (to_int node_r) (fun id =>
        keys_loop self rest (res ++ [id])))
      else if re_match CHILD node then
        and_then (rsplit_last node ".") (fun node_r =>
        and_then (to_int node_r) (fun id =>
        keys_loop self rest (res ++ [id])))
      else keys_loop self rest res
  end.

Definition keys (self : DeviceNode) : outcome (list Z) :=
  and_then (os_listdir (fs_path self)) (fun nodes =>
  keys_loop self nodes []).

Fixpoint items_loop (self : DeviceNode) (nodes : list string)
         (res : list (Z * DeviceNode)) : outcome (list (Z * DeviceNode)) :=
  match nodes with
  | [] => Return res
  | node :: rest =>
      if is_root self && re_match PARENT node then
        and_then (rsplit_last node "-") (fun node_r =>
        and_then (to_int node_r) (fun id =>
        items_loop self rest
                   (res ++ [(id, make self (Py.PyInt id) node)])))
      else if re_match CHILD node then
        and_then (rsplit_last node ".") (fun node_r =>
        and_then (to_int node_r) (fun id =>
        items_loop self rest
                   (res ++ [(id, make self (Py.PyInt id) node)])))
      else items_loop self rest res
  end.

Definition items (self : DeviceNode) : outcome (list (Z * DeviceNode)) :=
  and_then (os_listdir (fs_path self)) (fun nodes =>
  items_loop self nodes []).

(** [[_[1] for _ in self.items()]] *)
Definition values (self : DeviceNode) : outcome (list DeviceNode) :=
  fmap (map snd) (items self).

(** The second [if] of the [try] block; [next] is the rest of the loop. *)
Definition getitem_child (self : DeviceNode) (key : Py.value)
           (node : string) (next : outcome fetched) : outcome fetched :=
  if re_match CHILD node then
    match rsplit_last node "." with
    | Throw e => Throw e
    | Return node_r =>
        match int node_r with
        | None => Return KeyNotFound          (* except ValueError *)
        | Some z =>
            if key_is key z then Return (Found (make self key node))
            else next
        end
    end
  else next.

(** The [try] block for one entry. *)
Definition getitem_step (self : DeviceNode) (key : Py.value)
           (node : string) (next : outcome fetched) : outcome fetched :=
  if re_match PARENT node then
    match rsplit_last node "-" with
    | Throw e => Throw e
    | Return node_r =>
        match int node_r with
        | None => Return KeyNotFound          (* except ValueError *)
        | Some z =>
            if key_is key z then Return (Found (make self key node))
            else getitem_child self key node next
        end
    end
  else getitem_child self key node next.

Fixpoint getitem_loop (self : DeviceNode) (key : Py.value)
         (nodes : list string) : outcome fetched :=
  match nodes with
  | [] => Return Nothing
  | node :: rest =>
      getitem_step self key node (getitem_loop self key rest)
  end.

Definition getitem (self : DeviceNode) (key : Py.value) : outcome fetched :=
  and_then (os_listdir (fs_path self)) (fun nodes =>
  getitem_loop self key nodes).

End Methods.

End Device.

(** A root hub with three devices, the first of them a hub. *)
Definition hubfs : filesystem :=
  table_fs
    [ ("/sys/bus/usb/devices/usb1",
        Directory ["1-0:1.0"; "1-1"; "1-2"; "1-10"; "idVendor"]);
      ("/sys/bus/usb/devices/usb1/1-1",
        Directory ["1-1:1.0"; "1-1.3"; "1-1.4"; "power"]);
      ("/sys/bus/usb/devices/usb1/1-1/1-1.3", Directory ["1-1.3:1.0"]);
      ("/sys/bus/usb/devices/usb1/1-1/1-1.4", Directory ["1-1.4:1.0"]);
      ("/sys/bus/usb/devices/usb1/1-1/1-1.4/1-1.4:1.0",
        Directory ["ep_02"; "tty"; "ttyUSB1"]);
      ("/sys/bus/usb/devices/usb1/1-1/1-1.4/1-1.4:1.0/tty", File "");
      ("/sys/bus/usb/devices/usb1/1-2", Directory ["1-2:1.0"]) ].

Definition root1 : Device.DeviceNode :=
  Device.Node (Py.PyInt 1) "/sys/bus/usb/devices/usb1"
              (Device.Value (Py.PyInt 1)) true.

Definition dev1_1 : Device.DeviceNode :=
  Device.make root1 (Py.PyInt 1) "1-1".

(** Does [Interface.tty] give a device name within [depth] nested calls? *)
Definition tty_present (fs : filesystem) (depth : nat) (i : interface)
  : bool :=
  match Interface_tty fs depth i with
  | Ok (Some _) => true
  | _ => false
  end.

(** A port directory with an entry that is no extension of the port's name,
    and a bus directory where an interface name belongs to a plain file. *)
Definition strayfs : filesystem :=
  table_fs
    [ ("/sys/bus/usb/devices/usb1", Directory ["1-1"; "1-0:1.0"]);
      ("/sys/bus/usb/devices/usb1/1-0:1.0", File "");
      ("/sys/bus/usb/devices/usb1/1-1", Directory ["1-1.2"; "3-4"; "1-1.5"]);
      ("/sys/bus/usb/devices/usb1/1-1/1-1.2", Directory []);
      ("/sys/bus/usb/devices/usb1/1-1/1-1.5", Directory []) ].

(** * Properties *)

(** ** Strings *)

Lemma append_empty_r (s : string) : s ++ "" = s.
Proof. induction s as [|a s IH]; simpl; congruence. Qed.

Lemma append_assoc (s1 s2 s3 : string) : (s1 ++ s2) ++ s3 = s1 ++ s2 ++ s3.
Proof. induction s1 as [|a s1 IH]; simpl; congruence. Qed.

Lemma append_eq_empty (s1 s2 : string) :
  s1 ++ s2 = "" -> s1 = "" /\ s2 = "".
Proof. destruct s1; simpl; [auto | discriminate]. Qed.

(** ** The matcher decides [matches] *)

Lemma nullable_spec (r : regex) : nullable r = true <-> matches r "".
Proof.
  split.
  - induction r; simpl; intros H; try discriminate.
    + constructor.
    + apply andb_true_iff in H as [H1 H2].
      change "" with ("" ++ ""). constructor; auto.
    + apply orb_true_iff in H as [H|H]; [apply MAltL | apply MAltR]; auto.
    + constructor.
  - intros H. remember "" as s eqn:Es.
    induction H; simpl; try discriminate; auto.
    + apply append_eq_empty in Es as [-> ->].
      rewrite IHmatches1, IHmatches2; auto.
    + rewrite IHmatches; auto.
    + rewrite IHmatches, orb_true_r; auto.
Qed.

Lemma deriv_sound (c : ascii) (r : regex) :
  forall s, matches (deriv c r) s -> matches r (String c s).
Proof.
  induction r; simpl; intros s H.
  - inversion H.
  - inversion H.
  - destruct (Ascii.eqb c0 c) eqn:E; inversion H; subst.
    apply Ascii.eqb_eq in E; subst. constructor.
  - destruct (isdigit c) eqn:E; inversion H; subst. constructor; auto.
  - destruct (Ascii.eqb c Py.nl) eqn:E; inversion H; subst. constructor; auto.
  - destruct (nullable r1) eqn:N.
    + inversion H; subst.
      * match goal with HL : matches (Cat _ _) _ |- _ => inversion HL; subst end.
        change (String c (s1 ++ s2)) with (String c s1 ++ s2).
        constructor; auto.
      * change (String c s) with ("" ++ String c s).
        constructor; auto. apply nullable_spec; auto.
    + inversion H; subst.
      change (String c (s1 ++ s2)) with (String c s1 ++ s2).
      constructor; auto.
  - inversion H; subst; [apply MAltL | apply MAltR]; auto.
  - inversion H; subst.
    change (String c (s1 ++ s2)) with (String c s1 ++ s2).
    constructor; auto.
Qed.

Lemma deriv_complete (r : regex) (s0 : string) :
  matches r s0 ->
  forall c s, s0 = String c s -> matches (deriv c r) s.
Proof.
  induction 1 as [ | a | a Ha | a Ha | r1 r2 s1 s2 H1 IH1 H2 IH2
                   | r1 r2 s1 H IH | r1 r2 s1 H IH | r | r s1 s2 H1 IH1 H2 IH2 ];
    intros c s E; simpl.
  - discriminate.
  - injection E as -> <-. rewrite Ascii.eqb_refl. constructor.
  - injection E as -> <-. rewrite Ha. constructor.
  - injection E as -> <-. rewrite Ha. constructor.
  - destruct s1 as [|a s1]; simpl in E.
    + assert (N : nullable r1 = true) by (apply nullable_spec; auto).
      rewrite N. apply MAltR. auto.
    + injection E as -> <-.
      destruct (nullable r1); [apply MAltL|]; constructor; auto.
  - apply MAltL; auto.
  - apply MAltR; auto.
  - discriminate.
  - destruct s1 as [|a s1]; simpl in E.
    + apply (IH2 c s E).
    + injection E as -> <-. constructor; auto.
Qed.

Lemma fullmatch_spec (s : string) :
  forall r, fullmatch r s = true <-> matches r s.
Proof.
  induction s as [|c s IH]; intros r; simpl.
  - apply nullable_spec.
  - rewrite IH. split.
    + apply deriv_sound.
    + intros H. apply (deriv_complete r _ H c s eq_refl).
Qed.

Lemma chomp_spec (s t : string) :
  chomp s = Some t <-> s = t ++ String Py.nl "".
Proof.
  revert t. induction s as [|a s IH]; intros t; simpl.
  - split; [discriminate|]. destruct t; discriminate.
  - destruct s as [|b s].
    + destruct (Ascii.eqb a Py.nl) eqn:E.
      * apply Ascii.eqb_eq in E; subst. split.
        -- intros [= <-]. reflexivity.
        -- destruct t as [|x t]; [reflexivity|].
           simpl. intros [= _ H]. destruct t; discriminate.
      * split; [discriminate|].
        destruct t as [|x t]; simpl.
        -- intros [= ->]. rewrite Ascii.eqb_refl in E. discriminate.
        -- intros [= _ H]. destruct t; discriminate.
    + destruct (chomp (String b s)) as [u|] eqn:C.
      * pose proof (proj1 (IH u) eq_refl) as Hu. split.
        -- intros [= <-]. simpl. congruence.
        -- destruct t as [|x t]; simpl; [discriminate|].
           intros [= -> H]. f_equal. f_equal.
           apply IH in H. congruence.
      * split; [discriminate|].
        destruct t as [|x t]; simpl; [discriminate|].
        intros [= _ H]. apply IH in H. discriminate.
Qed.

(** [pattern.match(s)] succeeds when the body matches [s], or [s] less a final
    newline. *)
Lemma re_match_spec (body : regex) (s : string) :
  re_match body s = true <->
  matches body s \/ exists t, s = t ++ String Py.nl "" /\ matches body t.
Proof.
  unfold re_match. rewrite orb_true_iff, fullmatch_spec. split.
  - intros [H|H]; [auto|]. destruct (chomp s) as [t|] eqn:C; [|discriminate].
    right. exists t. split; [apply chomp_spec; auto | apply fullmatch_spec; auto].
  - intros [H|[t [E H]]]; [auto|]. right.
    apply chomp_spec in E. rewrite E. apply fullmatch_spec; auto.
Qed.

(** ** Slices after a delimiter *)

Lemma drop_length_append (p s : string) :
  Py.drop (String.length p) (p ++ s) = s.
Proof. induction p as [|a p IH]; simpl; auto. Qed.

Lemma slice_from_succ (s : string) (n : nat) :
  Py.slice_from s (Z.of_nat n + 1) = Py.drop (S n) s.
Proof.
  unfold Py.slice_from, Py.clamp.
  destruct (Z.of_nat n + 1 <? 0)%Z eqn:E; [apply Z.ltb_lt in E; lia|].
  replace (Z.to_nat (Z.of_nat n + 1)) with (S n) by lia. reflexivity.
Qed.

Lemma index_append (c : ascii) (p s : string) :
  Py.index c p = None ->
  Py.index c (p ++ String c s) = Some (String.length p).
Proof.
  induction p as [|a p IH]; simpl; intros H.
  - rewrite Ascii.eqb_refl. reflexivity.
  - destruct (Ascii.eqb a c); [discriminate|].
    destruct (Py.index c p); [discriminate|]. rewrite IH; auto.
Qed.

Lemma rindex_append (c : ascii) (p s : string) :
  Py.rindex c s = None ->
  Py.rindex c (p ++ String c s) = Some (String.length p).
Proof.
  intros H. induction p as [|a p IH]; simpl.
  - rewrite H, Ascii.eqb_refl. reflexivity.
  - rewrite IH. reflexivity.
Qed.

(** [child[child.find(c) + 1:]] is what follows the first [c]. *)
Lemma slice_after_first (c : ascii) (p s : string) :
  Py.index c p = None ->
  Py.slice_from (p ++ String c s) (Py.find (p ++ String c s) c + 1) = s.
Proof.
  intros H. unfold Py.find. rewrite index_append by auto.
  rewrite slice_from_succ.
  replace (p ++ String c s) with ((p ++ String c "") ++ s)
    by (rewrite append_assoc; reflexivity).
  replace (S (String.length p)) with (String.length (p ++ String c "")).
  - apply drop_length_append.
  - clear. induction p; simpl; auto.
Qed.

(** [child[child.rfind(c) + 1:]] is what follows the last [c]. *)
Lemma slice_after_last (c : ascii) (p s : string) :
  Py.rindex c s = None ->
  Py.slice_from (p ++ String c s) (Py.rfind (p ++ String c s) c + 1) = s.
Proof.
  intros H. unfold Py.rfind. rewrite rindex_append by auto.
  rewrite slice_from_succ.
  replace (p ++ String c s) with ((p ++ String c "") ++ s)
    by (rewrite append_assoc; reflexivity).
  replace (S (String.length p)) with (String.length (p ++ String c "")).
  - apply drop_length_append.
  - clear. induction p; simpl; auto.
Qed.

(** Without a [c] in it, the slice is the whole name. *)
Lemma slice_after_none (c : ascii) (s : string) :
  Py.rindex c s = None -> Py.slice_from s (Py.rfind s c + 1) = s.
Proof. intros H. unfold Py.rfind. rewrite H. reflexivity. Qed.

Lemma isdigit_neq (d c : ascii) :
  isdigit d = true -> isdigit c = false -> Ascii.eqb d c = false.
Proof.
  intros Hd Hc. destruct (Ascii.eqb d c) eqn:E; auto.
  apply Ascii.eqb_eq in E. congruence.
Qed.

(** ** What the four patterns match *)

Ltac invert_matches :=
  repeat match goal with
         | H : matches (Cat _ _) _ |- _ => inversion H; subst; clear H
         | H : matches (Lit _) _ |- _ => inversion H; subst; clear H
         | H : matches Digit _ |- _ => inversion H; subst; clear H
         | H : matches AnyChar _ |- _ => inversion H; subst; clear H
         end.

Lemma matches_digit_lit_digit (a c : ascii) (r : regex) (s : string) :
  isdigit a = true -> matches r s ->
  matches (Digit ~> Lit c ~> r)%re (String a (String c s)).
Proof.
  intros Ha H.
  change (String a (String c s)) with (String a "" ++ String c "" ++ s).
  repeat constructor; auto.
Qed.

Lemma IS_BUS_shape (s : string) :
  matches IS_BUS s <->
  exists n, isdigit n = true /\ s = String "u" (String "s" (String "b" (String n ""))).
Proof.
  unfold IS_BUS. split.
  - intros H. invert_matches. eauto.
  - intros [n [Hn ->]].
    change (String "u" (String "s" (String "b" (String n ""))))
      with ("u" ++ "s" ++ "b" ++ String n "").
    repeat constructor; auto.
Qed.

Lemma IS_BUS_PORT_shape (s : string) :
  matches IS_BUS_PORT s <->
  exists b p, isdigit b = true /\ isdigit p = true /\
              s = String b (String "-" (String p "")).
Proof.
  unfold IS_BUS_PORT. split.
  - intros H. invert_matches. eauto.
  - intros [b [p [Hb [Hp ->]]]].
    apply matches_digit_lit_digit; auto. constructor; auto.
Qed.

Lemma matches_star_snoc (r : regex) (s t : string) :
  matches (Star r) s -> matches r t -> matches (Star r) (s ++ t).
Proof.
  intros H. remember (Star r) as q eqn:Eq. revert Eq.
  induction H; intros Eq Ht; try discriminate.
  - injection Eq as ->. simpl. rewrite <- (append_empty_r t).
    constructor; [auto | constructor].
  - injection Eq as ->. rewrite append_assoc. constructor; auto.
Qed.

Lemma IS_SUB_PORT_shape (s : string) :
  matches IS_SUB_PORT s <->
  exists b p t, isdigit b = true /\ isdigit p = true /\
                matches (Star (Lit "." ~> Digit)%re) t /\
                s = String b (String "-" (String p t)).
Proof.
  unfold IS_SUB_PORT. split.
  - intros H. invert_matches. simpl. eauto 8.
  - intros [b [p [t [Hb [Hp [Ht ->]]]]]].
    apply matches_digit_lit_digit; auto.
    change (String p t) with (String p "" ++ t).
    repeat constructor; auto.
Qed.

(** A port name extended by [.<digit>] is a port name again. *)
Lemma IS_SUB_PORT_extend (p : string) (d : ascii) :
  matches IS_SUB_PORT p -> isdigit d = true ->
  matches IS_SUB_PORT (p ++ String "." (String d "")).
Proof.
  intros H Hd. apply IS_SUB_PORT_shape in H as [b [q [t [Hb [Hq [Ht ->]]]]]].
  apply IS_SUB_PORT_shape. exists b, q, (t ++ String "." (String d "")).
  repeat split; auto.
  apply matches_star_snoc; auto.
  change (String "." (String d "")) with ("." ++ String d "").
  repeat constructor; auto.
Qed.

(** An interface name is a port name, a colon, a digit, one character that is
    not a newline, and a digit. *)
Lemma IS_INTERFACE_shape (s : string) :
  matches IS_INTERFACE s <->
  exists dev c x i,
    matches IS_SUB_PORT dev /\ isdigit c = true /\
    Ascii.eqb x Py.nl = false /\ isdigit i = true /\
    s = dev ++ String ":" (String c (String x (String i ""))).
Proof.
  split.
  - unfold IS_INTERFACE. intros H. invert_matches.
    match goal with
    | Hs : matches (Star _) ?t, Hb : isdigit ?b = true |- context [String ?b "" ++ "-" ++ String ?p "" ++ _] =>
        exists (String b (String "-" (String p t)))
    end.
    do 3 eexists. repeat split; eauto.
    apply IS_SUB_PORT_shape. eauto 8.
  - intros [dev [c [x [i [H [Hc [Hx [Hi ->]]]]]]]].
    apply IS_SUB_PORT_shape in H as [b [q [t [Hb [Hq [Ht ->]]]]]].
    unfold IS_INTERFACE. simpl. apply matches_digit_lit_digit; auto.
    change (String q (t ++ String ":" (String c (String x (String i "")))))
      with (String q "" ++ t ++ ":" ++ String c "" ++ String x "" ++ String i "").
    repeat constructor; auto.
Qed.

(** ** Constructors and [__getitem__] *)

Section Nodes.

Variable fs : filesystem.

Lemma Bus_init_spec (n : Py.value) (parent : node) (path : string) :
  Bus_init fs n parent path =
  if isdir fs path then Ok (Bus n parent path)
  else Raise (ValueError "Invalid path given").
Proof. unfold Bus_init. destruct (isdir fs path); reflexivity. Qed.

Lemma Port_init_spec (n : Py.value) (parent : node) (path : string) :
  Port_init fs n parent path =
  if isdir fs path then Ok (Port n parent path)
  else Raise (ValueError "Invalid path given").
Proof. unfold Port_init. destruct (isdir fs path); reflexivity. Qed.

Lemma Interface_init_spec (path : string) :
  Interface_init fs path =
  if isdir fs path then Ok (Interface path)
  else Raise (ValueError "Invalid path given").
Proof. unfold Interface_init. destruct (isdir fs path); reflexivity. Qed.

(** [self[key]] is decided by one test: is the derived path a directory? *)
Lemma getitem_spec (self : node) (key : Py.value) :
  getitem fs self key =
  if isdir fs (child_path self key) then Ok (child self key)
  else Raise (KeyError key).
Proof.
  destruct self; simpl;
    unfold USB_getitem, Bus_getitem, Port_getitem, Bus_init, Port_init;
    match goal with |- context [isdir fs ?p] => destruct (isdir fs p) eqn:E end;
    simpl; rewrite ?E; reflexivity.
Qed.

Lemma child_fs_path (self : node) (key : Py.value) :
  fs_path (child self key) = child_path self key.
Proof. destruct self; reflexivity. Qed.

Lemma child_is_provider (self : node) (key : Py.value) :
  isinstance_InterfaceProvider (child self key) = true.
Proof. destruct self; reflexivity. Qed.

Lemma getitem_Ok (self : node) (key : Py.value) (c : node) :
  getitem fs self key = Ok c ->
  c = child self key /\ isdir fs (child_path self key) = true.
Proof.
  rewrite getitem_spec. destruct (isdir fs (child_path self key)).
  - intros [= <-]. auto.
  - discriminate.
Qed.

Lemma getitems_Ok (self : node) (ks : list string) :
  forall cs, getitems fs self ks = Ok cs ->
             cs = map (fun k => child self (Py.PyStr k)) ks /\
             Forall (fun k => isdir fs (child_path self (Py.PyStr k)) = true) ks.
Proof.
  induction ks as [|k ks IH]; simpl; intros cs H.
  - injection H as <-. auto.
  - destruct (getitem fs self (Py.PyStr k)) as [c|] eqn:G; [|discriminate].
    simpl in H.
    destruct (getitems fs self ks) as [cs'|] eqn:Gs; [|discriminate].
    simpl in H. injection H as <-.
    apply getitem_Ok in G as [-> D]. destruct (IH _ eq_refl) as [-> F].
    auto.
Qed.

Lemma values_providers (self : node) (cs : list node) :
  values fs self = Ok cs ->
  Forall (fun c => isinstance_InterfaceProvider c = true) cs.
Proof.
  unfold values. destruct (iter fs self) as [ks|]; [|discriminate]. simpl.
  intros H. apply getitems_Ok in H as [-> _].
  apply Forall_map. apply Forall_forall. intros k _. apply child_is_provider.
Qed.

Lemma values_directories (self : node) (cs : list node) :
  values fs self = Ok cs ->
  Forall (fun c => isdir fs (fs_path c) = true) cs.
Proof.
  unfold values. destruct (iter fs self) as [ks|]; [|discriminate]. simpl.
  intros H. apply getitems_Ok in H as [-> F].
  apply Forall_map. revert F. apply Forall_impl.
  intros k. rewrite child_fs_path. auto.
Qed.

(** ** [interfaces] *)

Lemma interfaces_loop_Ok (path : string) (children : list string) :
  forall acc l,
    interfaces_loop fs path children acc = Ok l <->
    forallb (fun c => isdir fs (OsPath.join path c))
            (filter (re_match IS_INTERFACE) children) = true /\
    l = (acc ++ map (fun c => Interface (OsPath.join path c))
                    (filter (re_match IS_INTERFACE) children))%list.
Proof.
  induction children as [|c cs IH]; intros acc l; simpl.
  - rewrite app_nil_r. split; [intros [= <-]; auto | intros [_ ->]; auto].
  - destruct (re_match IS_INTERFACE c); simpl; [|apply IH].
    rewrite Interface_init_spec.
    destruct (isdir fs (OsPath.join path c)); simpl.
    + rewrite IH, <- app_assoc. reflexivity.
    + split; [discriminate | intros [? _]; discriminate].
Qed.

Lemma interfaces_Ok (self : node) (l : list interface) :
  interfaces fs self = Ok l <->
  exists children,
    listdir fs (fs_path self) = Some children /\
    forallb (fun c => isdir fs (OsPath.join (fs_path self) c))
            (filter (re_match IS_INTERFACE) children) = true /\
    l = map (fun c => Interface (OsPath.join (fs_path self) c))
            (filter (re_match IS_INTERFACE) children).
Proof.
  unfold interfaces, os_listdir.
  destruct (listdir fs (fs_path self)) as [children|]; simpl.
  - rewrite interfaces_loop_Ok. simpl. split.
    + intros [F ->]. eauto.
    + intros [cs [[= <-] [F ->]]]. auto.
  - split; [discriminate | intros [cs [E _]]; discriminate].
Qed.

End Nodes.

(** ** [Interface.tty] *)

Section Tty.

Variable fs : filesystem.

(** The loop stops at the first entry whose name starts with [tty]. *)
Lemma match_tty_loop_find (recurse : string -> result (option string))
      (path : string) (children : list string) :
  match_tty_loop recurse path children =
  match List.find (fun c => Py.startswith c "tty") children with
  | None => Ok None
  | Some c =>
      if String.eqb c "tty" then recurse (OsPath.join path c)
      else Ok (Some c)
  end.
Proof.
  induction children as [|c cs IH]; simpl; [reflexivity|].
  destruct (Py.startswith c "tty"); simpl; [|apply IH].
  destruct (String.eqb c "tty"); reflexivity.
Qed.

Lemma find_first (f : string -> bool) (before after : list string) (c : string) :
  forallb (fun x => negb (f x)) before = true -> f c = true ->
  List.find f (before ++ c :: after) = Some c.
Proof.
  induction before as [|b bs IH]; simpl; intros Hb Hc.
  - rewrite Hc. reflexivity.
  - apply andb_true_iff in Hb as [Hb Hbs].
    apply negb_true_iff in Hb. rewrite Hb. auto.
Qed.

Lemma find_none (f : string -> bool) (l : list string) :
  forallb (fun x => negb (f x)) l = true -> List.find f l = None.
Proof.
  induction l as [|b bs IH]; simpl; intros Hb; [reflexivity|].
  apply andb_true_iff in Hb as [Hb Hbs].
  apply negb_true_iff in Hb. rewrite Hb. auto.
Qed.

Lemma match_tty_loop_mono (f g : string -> result (option string))
      (path : string) (children : list string) (v : option string) :
  (forall p w, f p = Ok w -> g p = Ok w) ->
  match_tty_loop f path children = Ok v ->
  match_tty_loop g path children = Ok v.
Proof.
  intros Hfg. rewrite !match_tty_loop_find.
  destruct (List.find _ children) as [c|]; auto.
  destruct (String.eqb c "tty"); auto.
Qed.

(** A result found within [depth] calls is found within any larger bound. *)
Lemma match_tty_mono (depth : nat) :
  forall depth' path v,
    depth <= depth' ->
    match_tty fs depth path = Ok v -> match_tty fs depth' path = Ok v.
Proof.
  induction depth as [|d IH]; intros depth' path v Hle; simpl.
  - discriminate.
  - destruct depth' as [|d']; [lia|]. simpl.
    destruct (os_listdir fs path) as [children|]; simpl; [|discriminate].
    apply match_tty_loop_mono. intros p w. apply IH. lia.
Qed.

End Tty.

(** ** [aggregated_interfaces] *)

Section Aggregate.

Variable fs : filesystem.

Lemma collect_loop_all (depth : nat) (found : list interface) :
  forall acc, collect_loop fs false depth found acc = Ok (acc ++ found)%list.
Proof.
  induction found as [|i found IH]; intros acc; simpl.
  - rewrite app_nil_r. reflexivity.
  - rewrite IH, <- app_assoc. reflexivity.
Qed.

Lemma collect_all (depth : nat) (self : node) (found acc : list interface) :
  isinstance_InterfaceProvider self = true ->
  interfaces fs self = Ok found ->
  collect fs false depth self acc = Ok (acc ++ found)%list.
Proof.
  intros P H. unfold collect. rewrite P, H. simpl. apply collect_loop_all.
Qed.

Lemma collect_nothing (tty : bool) (depth : nat) (self : node)
      (acc : list interface) :
  interfaces fs self = Ok [] ->
  collect fs tty depth self acc = Ok (acc ++ [])%list.
Proof.
  intros H. unfold collect. rewrite H, app_nil_r.
  destruct (isinstance_InterfaceProvider self); reflexivity.
Qed.

Lemma descendants_providers (self : node) (below : list node) :
  descendants fs self below ->
  Forall (fun c => isinstance_InterfaceProvider c = true) below.
Proof.
  intros H.
  induction H using descendants_mut
    with (P0 := fun cs below =>
                  Forall (fun c => isinstance_InterfaceProvider c = true) cs ->
                  Forall (fun c => isinstance_InterfaceProvider c = true) below).
  - apply IHdescendants. eapply values_providers; eauto.
  - auto.
  - intros F. inversion F; subst.
    constructor; auto. apply Forall_app. auto.
Qed.

(** The walk visits the nodes of [below] in their order, and each visit
    appends what [collect] finds there. *)
Lemma aggregate_descendants (tty : bool) (self : node) (below : list node) :
  descendants fs self below ->
  forall found,
    Forall2 (fun n l => forall d acc,
                 collect fs tty d n acc = Ok (acc ++ l)%list) below found ->
    exists depth0, forall depth acc,
        depth0 <= depth ->
        aggregate fs tty depth self acc = Ok (acc ++ concat found)%list.
Proof.
  intros H.
  induction H using descendants_mut
    with (P0 := fun cs below =>
      forall found,
        Forall2 (fun n l => forall d acc,
                     collect fs tty d n acc = Ok (acc ++ l)%list) below found ->
        exists depth0, forall depth acc,
            depth0 <= depth ->
            aggregate_loop (collect fs tty depth) (aggregate fs tty depth)
                           cs acc = Ok (acc ++ concat found)%list).
  - intros found F. destruct (IHdescendants found F) as [d0 Hd0].
    exists (S d0). intros depth acc Hle.
    destruct depth as [|d]; [lia|]. simpl.
    rewrite H. simpl. apply Hd0. lia.
  - intros found F. inversion F; subst. exists 0. intros depth acc _.
    simpl. rewrite app_nil_r. reflexivity.
  - intros found F. inversion F as [|n l ns found' Hl F']; subst.
    apply Forall2_app_inv_l in F' as [f1 [f2 [F1 [F2 ->]]]].
    destruct (IHdescendants f1 F1) as [d1 Hd1].
    destruct (IHdescendants0 f2 F2) as [d2 Hd2].
    exists (Nat.max d1 d2). intros depth acc Hle. simpl.
    rewrite Hl. simpl. rewrite Hd1 by lia. simpl. rewrite Hd2 by lia.
    rewrite concat_app, !app_assoc. reflexivity.
Qed.

Lemma collect_loop_resolves (bound depth : nat) (found : list interface) :
  depth <= bound ->
  forall acc l,
    collect_loop fs true depth found acc = Ok l ->
    Forall (resolves fs bound) acc -> Forall (resolves fs bound) l.
Proof.
  intros Hle. induction found as [|i found IH]; intros acc l; simpl.
  - intros [= <-]. auto.
  - destruct (Interface_tty fs depth i) as [[dev|]|] eqn:T; simpl;
      try discriminate.
    + intros H F. apply (IH _ _ H). apply Forall_app. split; auto.
      constructor; auto. exists dev.
      unfold Interface_tty in *. eapply match_tty_mono; eauto.
    + apply IH.
Qed.

Lemma aggregate_loop_preserves (Q : list interface -> Prop)
      (f g : node -> list interface -> result (list interface)) :
  (forall c a l, f c a = Ok l -> Q a -> Q l) ->
  (forall c a l, g c a = Ok l -> Q a -> Q l) ->
  forall cs a l, aggregate_loop f g cs a = Ok l -> Q a -> Q l.
Proof.
  intros Hf Hg. induction cs as [|c cs IH]; intros a l; simpl.
  - intros [= <-]. auto.
  - destruct (f c a) as [a1|] eqn:F; simpl; [|discriminate].
    destruct (g c a1) as [a2|] eqn:G; simpl; [|discriminate].
    intros H Qa. apply (IH _ _ H). eapply Hg; eauto.
Qed.

Lemma aggregate_resolves (bound depth : nat) :
  depth <= bound ->
  forall self acc l,
    aggregate fs true depth self acc = Ok l ->
    Forall (resolves fs bound) acc -> Forall (resolves fs bound) l.
Proof.
  induction depth as [|d IH]; intros Hle self acc l; simpl.
  - discriminate.
  - destruct (values fs self) as [cs|]; simpl; [|discriminate].
    apply aggregate_loop_preserves.
    + intros c a l'. unfold collect.
      destruct (isinstance_InterfaceProvider c); [|intros [= <-]; auto].
      destruct (interfaces fs c) as [found|]; simpl; [|discriminate].
      apply collect_loop_resolves. lia.
    + intros c a l'. apply IH. lia.
Qed.

End Aggregate.

(** ** First-level ports *)

(** Among the names [pattern.match] accepts there are those that end in a
    newline the body did not match. *)
Remark IS_BUS_PORT_accepts_trailing_newline :
  re_match IS_BUS_PORT (String "1" (String "-" (String "1" (String Py.nl ""))))
  = true.
Proof. reflexivity. Qed.

(** A [<digit>-<digit>] entry of a bus directory is a key of the bus, the key
    being the port digit. *)
Theorem Bus_iter_single_digit_port
        (fs : filesystem) (self : node) (children : list string) (b p : ascii) :
  listdir fs (fs_path self) = Some children ->
  In (String b (String "-" (String p ""))) children ->
  isdigit b = true -> isdigit p = true ->
  re_match IS_BUS_PORT (String b (String "-" (String p ""))) = true /\
  exists ks, Bus_iter fs self = Ok ks /\ In (String p "") ks.
Proof.
  intros L I Hb Hp.
  assert (M : re_match IS_BUS_PORT (String b (String "-" (String p ""))) = true).
  { apply re_match_spec. left. apply IS_BUS_PORT_shape. eauto. }
  split; [exact M|].
  unfold Bus_iter, os_listdir. rewrite L. simpl. eexists. split; [reflexivity|].
  apply in_map_iff. exists (String b (String "-" (String p ""))). split.
  - apply (slice_after_first "-" (String b "") (String p "")).
    simpl. rewrite (isdigit_neq b "-"); auto.
  - apply filter_In. auto.
Qed.

Lemma Bus_iter_single_digit_port_example :
  re_match IS_BUS_PORT "1-1" = true /\
  exists ks, Bus_iter sysfs bus1 = Ok ks /\ In "1" ks.
Proof.
  apply (Bus_iter_single_digit_port sysfs bus1
           ["1-0:1.0"; "1-1"; "idVendor"; "power"] "1" "1");
    [reflexivity | simpl; auto | reflexivity | reflexivity].
Defined.

(** C1, at the entry [1-10] of bus 1: the name is a first-level port name of
    the bus and a directory, [bus['10']] fetches it, but [IS_BUS_PORT] refuses
    the second digit and the bus does not list it among its keys. *)
Theorem Bus_iter_misses_port_10 :
  first_level_port_name "1" "10" "1-10" /\
  name bus1 = Py.PyStr "1" /\
  listdir bigfs (fs_path bus1) = Some ["1-1"; "1-10"; "idVendor"] /\
  re_match IS_BUS_PORT "1-10" = false /\
  Bus_iter bigfs bus1 = Ok ["1"] /\
  Bus_getitem bigfs bus1 (Py.PyStr "10") =
    Ok (Port (Py.PyStr "10") bus1 "/sys/bus/usb/devices/usb1/1-10").
Proof. repeat split. Qed.

(** ** Nested ports *)

(** The entry [<parent name>.<digit>] of a port directory is a key of the
    port, the key is the digit after the last dot, and [self[key]] looks the
    very same entry up again. *)
Theorem Port_iter_getitem_roundtrip
        (fs : filesystem) (self : node) (children : list string)
        (parent_name : string) (d : ascii) :
  fs_name (fs_path self) = Py.PyStr parent_name ->
  fullmatch IS_SUB_PORT parent_name = true ->
  isdigit d = true ->
  listdir fs (fs_path self) = Some children ->
  In (parent_name ++ String "." (String d "")) children ->
  re_match IS_SUB_PORT (parent_name ++ String "." (String d "")) = true /\
  (exists ks, Port_iter fs self = Ok ks /\ In (String d "") ks) /\
  Port_child_path self (Py.PyStr (String d "")) =
    OsPath.join (fs_path self) (parent_name ++ String "." (String d "")).
Proof.
  intros N M Hd L I.
  assert (R : re_match IS_SUB_PORT (parent_name ++ String "." (String d "")) = true).
  { apply re_match_spec. left. apply IS_SUB_PORT_extend; auto.
    apply fullmatch_spec; auto. }
  split; [exact R|]. split.
  - unfold Port_iter, os_listdir. rewrite L. simpl.
    eexists. split; [reflexivity|].
    apply in_map_iff. exists (parent_name ++ String "." (String d "")). split.
    + apply slice_after_last. simpl. rewrite (isdigit_neq d "."); auto.
    + apply filter_In. auto.
  - unfold Port_child_path. rewrite N. reflexivity.
Qed.

Lemma Port_iter_getitem_roundtrip_example :
  re_match IS_SUB_PORT "1-1.2" = true /\
  (exists ks, Port_iter sysfs port1 = Ok ks /\ In "2" ks) /\
  Port_child_path port1 (Py.PyStr "2") =
    OsPath.join (fs_path port1) "1-1.2".
Proof.
  apply (Port_iter_getitem_roundtrip sysfs port1
           ["1-1:1.0"; "1-1.2"; "driver"] "1-1" "2");
    [reflexivity | reflexivity | reflexivity | reflexivity | simpl; auto].
Defined.

(** C2, at the entry [1-1.10] of port [1-1]: a nested port name of that port
    and a directory, which [port['10']] fetches; [IS_SUB_PORT] refuses it, so
    it is not classified and has no key to regenerate it from. *)
Theorem Port_iter_misses_port_1_1_10 :
  nested_port_name "1-1" "10" "1-1.10" /\
  fs_name (fs_path port1) = Py.PyStr "1-1" /\
  listdir bigfs (fs_path port1) =
    Some ["1-1.2"; "1-1.10"; "1-1:1.0"; "2-3:1.0"; "1-1:1x0"] /\
  re_match IS_SUB_PORT "1-1.10" = false /\
  Port_iter bigfs port1 = Ok ["2"] /\
  Port_getitem bigfs port1 (Py.PyStr "10") =
    Ok (Port (Py.PyStr "10") port1 "/sys/bus/usb/devices/usb1/1-1/1-1.10").
Proof. repeat split. Qed.

(** ** Interfaces *)

Lemma isdigit_port_char (c : ascii) :
  isdigit c = true -> Py.mem c port_chars = true.
Proof.
  destruct c as [[] [] [] [] [] [] [] []]; intros H;
    try discriminate H; reflexivity.
Qed.

Lemma all_in_string_append (chars s1 s2 : string) :
  all_in chars (s1 ++ s2) = all_in chars s1 && all_in chars s2.
Proof.
  induction s1 as [|a s1 IH]; simpl; [reflexivity|].
  rewrite IH, andb_assoc. reflexivity.
Qed.

Lemma dotted_digits_port_chars (r : regex) (t : string) :
  matches r t -> r = Star (Lit "." ~> Digit)%re ->
  all_in port_chars t = true.
Proof.
  induction 1; intros E; try discriminate E.
  - reflexivity.
  - injection E as ->. rewrite all_in_string_append, IHmatches2 by reflexivity.
    rewrite andb_true_r. clear IHmatches1 IHmatches2.
    invert_matches.
    change (Py.mem c port_chars && true = true).
    rewrite isdigit_port_char by assumption. reflexivity.
Qed.

Lemma IS_SUB_PORT_port_chars (dev : string) :
  matches IS_SUB_PORT dev ->
  all_in port_chars dev = true /\
  exists b, first_char dev = Some b /\ isdigit b = true.
Proof.
  intros H. apply IS_SUB_PORT_shape in H as [b [p [t [Hb [Hp [Ht ->]]]]]].
  split; [|exists b; auto].
  change (Py.mem b port_chars
          && (true && (Py.mem p port_chars && all_in port_chars t)) = true).
  rewrite !isdigit_port_char by assumption.
  rewrite (dotted_digits_port_chars _ t Ht eq_refl). reflexivity.
Qed.

Lemma index_port_chars (c : ascii) (s : string) :
  Py.mem c port_chars = false -> all_in port_chars s = true ->
  Py.index c s = None.
Proof.
  intros Hc. induction s as [|a s IH]; [reflexivity|].
  cbn [all_in Py.index]. intros H. apply andb_true_iff in H as [Ha Hs].
  destruct (Ascii.eqb a c) eqn:E.
  - apply Ascii.eqb_eq in E. subst. congruence.
  - rewrite IH by assumption. reflexivity.
Qed.

Lemma index_append_some (c : ascii) (a b : string) :
  Py.index c (a ++ String c b) <> None.
Proof.
  induction a as [|x a IH]; simpl.
  - rewrite Ascii.eqb_refl. discriminate.
  - destruct (Ascii.eqb x c); [discriminate|].
    destruct (Py.index c (a ++ String c b)); [discriminate|]. exact IH.
Qed.

Lemma index_append_newline (c : ascii) (s : string) :
  Py.index c s = None -> Ascii.eqb Py.nl c = false ->
  Py.index c (s ++ String Py.nl "") = None.
Proof.
  intros H N. induction s as [|a s IH]; cbn [append Py.index] in *.
  - rewrite N. reflexivity.
  - destruct (Ascii.eqb a c); [discriminate|].
    destruct (Py.index c s); [discriminate|]. rewrite IH by reflexivity.
    reflexivity.
Qed.

(** What every interface name has: a colon, a port name's characters before
    it, a digit in front and a digit behind the colon. *)
Lemma interface_name_parts (entry : string) :
  re_match IS_INTERFACE entry = true ->
  exists dev d rest,
    entry = dev ++ String ":" (String d rest) /\
    all_in port_chars dev = true /\
    (exists b, first_char dev = Some b /\ isdigit b = true) /\
    isdigit d = true.
Proof.
  intros M. apply re_match_spec in M as [M|[t [-> M]]];
    apply IS_INTERFACE_shape in M as [dev [c [x [i [Hd [Hc [_ [Hi ->]]]]]]]];
    destruct (IS_SUB_PORT_port_chars dev Hd) as [A F];
    exists dev, c; eexists; (split; [|split; [exact A|split; [exact F|exact Hc]]]).
  - reflexivity.
  - rewrite append_assoc. reflexivity.
Qed.

Lemma interface_name_is_no_port_name (entry : string) :
  re_match IS_INTERFACE entry = true -> re_match IS_SUB_PORT entry = false.
Proof.
  intros M. destruct (interface_name_parts entry M) as [dev [d [rest [E _]]]].
  destruct (re_match IS_SUB_PORT entry) eqn:P; [|reflexivity].
  exfalso. apply (index_append_some ":" dev (String d rest)). rewrite <- E.
  apply re_match_spec in P as [P|[t [-> P]]];
    apply IS_SUB_PORT_port_chars in P as [A _].
  - apply index_port_chars; [reflexivity | exact A].
  - apply index_append_newline; [|reflexivity].
    apply index_port_chars; [reflexivity | exact A].
Qed.

(** The unescaped dot of [IS_INTERFACE] stands for any character. *)
Remark IS_INTERFACE_accepts_other_separator :
  re_match IS_INTERFACE "1-1:1x0" = true /\
  re_match IS_INTERFACE "1-1:1.0" = true /\
  re_match IS_INTERFACE "1-1:10.0" = false.
Proof. repeat split. Qed.

(** C3, the claim as stated fails: the interface of the root hub, [1-0:1.0],
    lies in the directory [usb1] and is an interface of the bus, and the
    entry [2-3:1.0] of port [1-1] is an interface of that port; neither name
    starts with the path string of its parent. *)
Lemma interfaces_ignore_the_parent_path :
  interfaces sysfs bus1 = Ok [Interface "/sys/bus/usb/devices/usb1/1-0:1.0"] /\
  fs_name (fs_path bus1) = Py.PyStr "usb1" /\
  ~ interface_name_of "usb1" "1-0:1.0" /\
  ~ interface_name_of (fs_path bus1) "1-0:1.0" /\
  (exists l, interfaces bigfs port1 = Ok l /\
             In (Interface "/sys/bus/usb/devices/usb1/1-1/2-3:1.0") l) /\
  fs_name (fs_path port1) = Py.PyStr "1-1" /\
  ~ interface_name_of "1-1" "2-3:1.0".
Proof.
  repeat split; try (intros [c [n [_ [_ E]]]]; discriminate).
  eexists. split; [reflexivity|]. simpl. auto.
Qed.

(** C3, amended: an entry is an interface by its own name alone, the path of
    the node that lists it plays no part.  A name made of a port name, a
    colon, a digit, a dot and a digit is an interface name.  A name is no
    interface name unless it has a colon, with digits, dashes and dots alone
    before the first one, a digit in front, and a digit right after it; no
    port name is an interface name.  When each entry with an interface name
    is a directory, [interfaces] returns one [Interface] per such entry, in
    the order of the listing, at the entry's path. *)
Theorem interfaces_by_name
        (fs : filesystem) (self : node) (children : list string) :
  listdir fs (fs_path self) = Some children ->
  (forall c, In c children -> re_match IS_INTERFACE c = true ->
             isdir fs (OsPath.join (fs_path self) c) = true) ->
  (forall dev c i,
      fullmatch IS_SUB_PORT dev = true -> isdigit c = true -> isdigit i = true ->
      re_match IS_INTERFACE
               (dev ++ String ":" (String c (String "." (String i "")))) = true) /\
  (forall entry,
      re_match IS_INTERFACE entry = true ->
      re_match IS_SUB_PORT entry = false /\
      exists dev d rest,
        entry = dev ++ String ":" (String d rest) /\
        all_in port_chars dev = true /\
        (exists b, first_char dev = Some b /\ isdigit b = true) /\
        isdigit d = true) /\
  interfaces fs self =
    Ok (map (fun c => Interface (OsPath.join (fs_path self) c))
            (filter (re_match IS_INTERFACE) children)).
Proof.
  intros L D. split; [|split].
  - intros dev c i Hdev Hc Hi. apply re_match_spec. left.
    apply IS_INTERFACE_shape. exists dev, c, "."%char, i.
    repeat split; auto. apply fullmatch_spec; auto.
  - intros entry M. split; [apply (interface_name_is_no_port_name entry M)|].
    apply interface_name_parts. exact M.
  - apply interfaces_Ok. exists children. repeat split; auto.
    apply forallb_forall. intros c I. apply filter_In in I as [I M]. auto.
Qed.

Lemma interfaces_by_name_example :
  interfaces sysfs bus1 = Ok [Interface "/sys/bus/usb/devices/usb1/1-0:1.0"].
Proof.
  apply (interfaces_by_name sysfs bus1
           ["1-0:1.0"; "1-1"; "idVendor"; "power"]).
  - reflexivity.
  - intros c I M. simpl in I.
    repeat (destruct I as [<-|I]; [try reflexivity; discriminate M|]).
    destruct I.
Defined.

(** ** Fetching a child by its key *)

(** C4, the claim as stated fails: a negative number and a key that is not a
    number are answered with the same [KeyError] as a well formed key whose
    directory is missing. *)
Lemma malformed_key_gives_KeyError :
  well_formed_key (Py.PyInt (-1)) = false /\
  getitem sysfs bus1 (Py.PyInt (-1)) = Raise (KeyError (Py.PyInt (-1))) /\
  well_formed_key (Py.PyStr "x") = false /\
  getitem sysfs port1 (Py.PyStr "x") = Raise (KeyError (Py.PyStr "x")) /\
  getitem sysfs usb (Py.PyNone) = Raise (KeyError Py.PyNone) /\
  well_formed_key (Py.PyInt 7) = true /\
  getitem sysfs bus1 (Py.PyInt 7) = Raise (KeyError (Py.PyInt 7)).
Proof. repeat split. Qed.

(** C4, amended: for every container node and every key, well formed or not,
    [self[key]] has one of two outcomes, decided by the directory test on
    the path derived from the key: the child node at that path, or
    [KeyError(key)].  There is no third outcome for a malformed key. *)
Theorem getitem_found_or_KeyError
        (fs : filesystem) (self : node) (key : Py.value) :
  (if isdir fs (child_path self key)
   then getitem fs self key = Ok (child self key)
   else getitem fs self key = Raise (KeyError key)) /\
  fs_path (child self key) = child_path self key /\
  name (child self key) = key /\
  (is_KeyError (getitem fs self key) = negb (isdir fs (child_path self key))).
Proof.
  rewrite getitem_spec.
  destruct (isdir fs (child_path self key)); repeat split;
    destruct self; reflexivity.
Qed.

(** ** The serial device of an interface *)

(** C5: the first entry of the interface directory whose name starts with
    [tty] decides.  Named otherwise than [tty], it is the result; named
    [tty], the search is repeated in that directory, so that [tty/ttyUSB0]
    resolves to [ttyUSB0]; with no such entry the result is [None]. *)
Theorem Interface_tty_resolution
        (fs : filesystem) (depth : nat) (self : interface)
        (children : list string) :
  listdir fs (iface_fs_path self) = Some children ->
  (forallb (fun c => negb (Py.startswith c "tty")) children = true ->
   Interface_tty fs (S depth) self = Ok None) /\
  (forall before entry after,
      children = (before ++ entry :: after)%list ->
      forallb (fun c => negb (Py.startswith c "tty")) before = true ->
      Py.startswith entry "tty" = true ->
      (entry <> "tty" -> Interface_tty fs (S depth) self = Ok (Some entry)) /\
      (entry = "tty" ->
       Interface_tty fs (S depth) self =
         match_tty fs depth (OsPath.join (iface_fs_path self) "tty")) /\
      (entry = "tty" ->
       forall before' after',
         listdir fs (OsPath.join (iface_fs_path self) "tty") =
           Some (before' ++ "ttyUSB0" :: after')%list ->
         forallb (fun c => negb (Py.startswith c "tty")) before' = true ->
         Interface_tty fs (S (S depth)) self = Ok (Some "ttyUSB0"))).
Proof.
  intros L. unfold Interface_tty. split.
  - intros N. simpl. unfold os_listdir. rewrite L. simpl.
    rewrite match_tty_loop_find, find_none; auto.
  - intros before entry after -> B E.
    assert (F : forall d,
               match_tty fs (S d) (iface_fs_path self) =
               if String.eqb entry "tty"
               then match_tty fs d (OsPath.join (iface_fs_path self) entry)
               else Ok (Some entry)).
    { intros d. simpl. unfold os_listdir. rewrite L. simpl.
      rewrite match_tty_loop_find, find_first; auto. }
    split; [|split].
    + intros Hne. rewrite F. apply String.eqb_neq in Hne. rewrite Hne. reflexivity.
    + intros ->. rewrite F. reflexivity.
    + intros -> before' after' L' B'. rewrite F. simpl. unfold os_listdir.
      rewrite L'. simpl. rewrite match_tty_loop_find, find_first; auto.
Qed.

Lemma Interface_tty_resolution_example :
  Interface_tty sysfs 2
    (Interface "/sys/bus/usb/devices/usb1/1-1/1-1.2/1-1.2:1.0")
    = Ok (Some "ttyUSB0") /\
  Interface_tty sysfs 1 (Interface "/sys/bus/usb/devices/usb1/1-1/1-1:1.0")
    = Ok None.
Proof.
  split.
  - apply (Interface_tty_resolution sysfs 0
             (Interface "/sys/bus/usb/devices/usb1/1-1/1-1.2/1-1.2:1.0")
             ["ep_02"; "tty"] eq_refl)
      with (before := ["ep_02"]) (entry := "tty") (after := @nil string)
           (before' := @nil string) (after' := @nil string);
      reflexivity.
  - apply (Interface_tty_resolution sysfs 0
             (Interface "/sys/bus/usb/devices/usb1/1-1/1-1:1.0")
             ["ep_81"] eq_refl).
    reflexivity.
Defined.

(** The older resolver of [device.py] works on a device directory and does
    not look into a [tty] directory: it returns that entry itself. *)
Remark DeviceNode_tty_stops_at_tty :
  DeviceNode_tty sysfs (fs_path port1_2) = Ok (Some "tty") /\
  DeviceNode_tty sysfs (fs_path port1) = Ok None.
Proof. split; reflexivity. Qed.

(** ** Attribute files *)

(** C6, at the content ["0403\n\x00"]: [strip('\n').strip()] removes
    newlines and white space from the two ends only, the NUL byte at the end
    is neither, and the content comes back as it is.  [DeviceNode.idVendor],
    which strips ["\n\x00"], gives ["0403"]. *)
Theorem FileAttributes_keeps_the_NUL
        (object_getattribute : string -> result attribute) :
  read bigfs (OsPath.join (fs_path bus1) "idVendor") = inr content_0403_nl_nul /\
  getattribute bigfs object_getattribute bus1 "idVendor"
    = Ok (FileValue (Some content_0403_nl_nul)) /\
  content_0403_nl_nul <> "0403" /\
  DeviceNode_idVendor bigfs (fs_path bus1) = Ok "0403" /\
  clean ("0403" ++ String Py.nl "") = "0403".
Proof. repeat split. discriminate. Qed.

(** C7: an attribute file that cannot be opened or read, whatever the
    reason, makes the attribute [None]; nothing is raised. *)
Theorem unreadable_attribute_is_None
        (fs : filesystem) (object_getattribute : string -> result attribute)
        (attributes : list string) (path attr : string)
        (failure : io_failure) :
  Py.contains attributes attr = true ->
  read fs (OsPath.join path attr) = inl failure ->
  FileAttributes_getattribute fs object_getattribute attributes path attr
    = Ok (FileValue None) /\
  (forall self, file_attributes self = attributes -> fs_path self = path ->
                getattribute fs object_getattribute self attr
                = Ok (FileValue None)) /\
  (forall self, Interface_file_attributes = attributes ->
                iface_fs_path self = path ->
                Interface_getattribute fs object_getattribute self attr
                = Ok (FileValue None)).
Proof.
  intros A R.
  assert (G : FileAttributes_getattribute fs object_getattribute
                                          attributes path attr
              = Ok (FileValue None)).
  { unfold FileAttributes_getattribute. rewrite A, R. reflexivity. }
  split; [exact G|]. split.
  - intros self <- <-. destruct self; simpl in *; [discriminate| |]; exact G.
  - intros self <- <-. exact G.
Qed.

Lemma unreadable_attribute_is_None_example :
  getattribute sysfs (fun name => Raise (AttributeError name)) bus1 "idProduct"
    = Ok (FileValue None) /\
  Interface_getattribute sysfs (fun name => Raise (AttributeError name))
    (Interface "/sys/bus/usb/devices/usb1/1-1/1-1:1.0") "modalias"
    = Ok (FileValue None).
Proof.
  split.
  - apply (unreadable_attribute_is_None sysfs
             (fun name => Raise (AttributeError name)) Bus_file_attributes
             (fs_path bus1) "idProduct" NoSuchFile eq_refl eq_refl);
      reflexivity.
  - apply (unreadable_attribute_is_None sysfs
             (fun name => Raise (AttributeError name))
             Interface_file_attributes
             "/sys/bus/usb/devices/usb1/1-1/1-1:1.0" "modalias" NoSuchFile
             eq_refl eq_refl);
      reflexivity.
Defined.

(** ** Aggregated interfaces *)

(** Only the root has the method. *)
Remark aggregated_interfaces_is_a_method_of_USB :
  aggregated_interfaces sysfs 1000 bus1 false
  = Raise (AttributeError "aggregated_interfaces").
Proof. reflexivity. Qed.

(** C8: from the root, when the walk below it ends ([below] lists the nodes
    it visits, each parent before its children) and [interfaces] answers at
    each of them, a large enough recursion limit makes
    [aggregated_interfaces()] return the interfaces of all these nodes, node
    by node in the order of the visit, in one flat list built from [[]].  The
    visited nodes are buses and ports. *)
Theorem aggregated_interfaces_preorder
        (fs : filesystem) (path : string)
        (below : list node) (found : list (list interface)) :
  descendants fs (USB path) below ->
  Forall2 (fun n l => interfaces fs n = Ok l) below found ->
  Forall (fun n => isinstance_InterfaceProvider n = true) below /\
  exists depth0, forall depth,
      depth0 <= depth ->
      aggregated_interfaces fs depth (USB path) false = Ok (concat found).
Proof.
  intros D F.
  pose proof (descendants_providers fs _ _ D) as P.
  split; [exact P|].
  destruct (aggregate_descendants fs false _ _ D found) as [d0 H].
  - clear D. revert P. induction F as [|n l ns ls Hn F IH]; intros P.
    + constructor.
    + inversion P; subst. constructor; auto.
      intros d acc. apply collect_all; auto.
  - exists d0. intros depth Hle. unfold aggregated_interfaces. simpl.
    apply (H depth [] Hle).
Qed.

Lemma sysfs_descendants : descendants sysfs usb [bus1; port1; port1_2].
Proof.
  apply descendants_of with (children := [bus1]); [reflexivity|].
  apply (descendants_cons sysfs bus1 [] [port1; port1_2] []);
    [|apply descendants_nil].
  apply descendants_of with (children := [port1]); [reflexivity|].
  apply (descendants_cons sysfs port1 [] [port1_2] []);
    [|apply descendants_nil].
  apply descendants_of with (children := [port1_2]); [reflexivity|].
  apply (descendants_cons sysfs port1_2 [] [] []); [|apply descendants_nil].
  apply descendants_of with (children := []); [reflexivity|].
  apply descendants_nil.
Defined.

Lemma aggregated_interfaces_preorder_example :
  exists depth0, forall depth,
      depth0 <= depth ->
      aggregated_interfaces sysfs depth usb false =
        Ok [Interface "/sys/bus/usb/devices/usb1/1-0:1.0";
            Interface "/sys/bus/usb/devices/usb1/1-1/1-1:1.0";
            Interface "/sys/bus/usb/devices/usb1/1-1/1-1.2/1-1.2:1.0"].
Proof.
  apply (aggregated_interfaces_preorder sysfs USB_FS_ROOT
           [bus1; port1; port1_2]
           [[Interface "/sys/bus/usb/devices/usb1/1-0:1.0"];
            [Interface "/sys/bus/usb/devices/usb1/1-1/1-1:1.0"];
            [Interface "/sys/bus/usb/devices/usb1/1-1/1-1.2/1-1.2:1.0"]]).
  - exact sysfs_descendants.
  - repeat constructor.
Defined.

(** C9: below a root whose buses and ports have no interface at all the
    result is the empty list, with or without [tty]; and with [tty] set,
    every interface of a returned list has a [tty] that is a device name. *)
Theorem aggregated_interfaces_tty_only (fs : filesystem) (path : string) :
  (forall below,
      descendants fs (USB path) below ->
      Forall (fun n => interfaces fs n = Ok []) below ->
      exists depth0, forall depth tty,
          depth0 <= depth ->
          aggregated_interfaces fs depth (USB path) tty = Ok []) /\
  (forall depth ifaces,
      aggregated_interfaces fs depth (USB path) true = Ok ifaces ->
      Forall (resolves fs depth) ifaces).
Proof.
  split.
  - intros below D Z.
    assert (F : forall tty,
               Forall2 (fun n l => forall d acc,
                            collect fs tty d n acc = Ok (acc ++ l)%list)
                       below (map (fun _ => []) below)).
    { intros tty. clear D. induction Z as [|n ns Hn Z IH]; simpl; constructor; auto.
      intros d acc. apply collect_nothing; auto. }
    destruct (aggregate_descendants fs false _ _ D _ (F false)) as [d0 H0].
    destruct (aggregate_descendants fs true _ _ D _ (F true)) as [d1 H1].
    exists (Nat.max d0 d1). intros depth tty Hle.
    assert (E : concat (map (fun _ : node => @nil interface) below) = []).
    { clear. induction below; simpl; auto. }
    unfold aggregated_interfaces. simpl.
    destruct tty; [rewrite H1 by lia | rewrite H0 by lia]; rewrite E; reflexivity.
  - intros depth ifaces H. unfold aggregated_interfaces in H. simpl in H.
    apply (aggregate_resolves fs depth depth (le_n _) _ _ _ H). constructor.
Qed.

Lemma barefs_descendants :
  descendants barefs usb
    [bus1; Port (Py.PyStr "1") bus1 "/sys/bus/usb/devices/usb1/1-1"].
Proof.
  apply descendants_of with (children := [bus1]); [reflexivity|].
  apply (descendants_cons barefs bus1 [] [port1] []); [|apply descendants_nil].
  apply descendants_of with (children := [port1]); [reflexivity|].
  apply (descendants_cons barefs port1 [] [] []); [|apply descendants_nil].
  apply descendants_of with (children := []); [reflexivity|].
  apply descendants_nil.
Defined.

Lemma aggregated_interfaces_tty_only_example :
  (exists depth0, forall depth tty,
        depth0 <= depth ->
        aggregated_interfaces barefs depth usb tty = Ok []) /\
  aggregated_interfaces sysfs 5 usb true
    = Ok [Interface "/sys/bus/usb/devices/usb1/1-1/1-1.2/1-1.2:1.0"] /\
  Forall (resolves sysfs 5)
         [Interface "/sys/bus/usb/devices/usb1/1-1/1-1.2/1-1.2:1.0"].
Proof.
  split; [|split].
  - apply (proj1 (aggregated_interfaces_tty_only barefs USB_FS_ROOT)
                 [bus1; port1] barefs_descendants).
    repeat constructor.
  - reflexivity.
  - apply (proj2 (aggregated_interfaces_tty_only sysfs USB_FS_ROOT) 5).
    reflexivity.
Defined.

(** ** Nodes and directories *)

(** C10: the constructors of [Bus], [Port] and [Interface] raise
    [ValueError] unless the path is a directory, so the node [self[key]]
    returns, the nodes of [values()] and the interfaces of [interfaces] all
    sit on directories; the constructor of [USB] takes any path. *)
Theorem nodes_sit_on_directories (fs : filesystem) :
  (forall n parent path,
      Bus_init fs n parent path =
      if isdir fs path then Ok (Bus n parent path)
      else Raise (ValueError "Invalid path given")) /\
  (forall n parent path,
      Port_init fs n parent path =
      if isdir fs path then Ok (Port n parent path)
      else Raise (ValueError "Invalid path given")) /\
  (forall path,
      Interface_init fs path =
      if isdir fs path then Ok (Interface path)
      else Raise (ValueError "Invalid path given")) /\
  (forall self key c,
      getitem fs self key = Ok c -> isdir fs (fs_path c) = true) /\
  (forall self cs,
      values fs self = Ok cs ->
      Forall (fun c => isdir fs (fs_path c) = true) cs) /\
  (forall self ifaces,
      interfaces fs self = Ok ifaces ->
      Forall (fun i => isdir fs (iface_fs_path i) = true) ifaces) /\
  (forall path, isdir fs path = false -> fs_path (USB_init path) = path).
Proof.
  split; [apply Bus_init_spec|].
  split; [apply Port_init_spec|].
  split; [apply Interface_init_spec|].
  split; [|split; [apply values_directories|split]].
  - intros self key c H. apply getitem_Ok in H as [-> D].
    rewrite child_fs_path. exact D.
  - intros self ifaces H. apply interfaces_Ok in H as [cs [_ [F ->]]].
    apply Forall_map. apply Forall_forall. intros c I.
    rewrite forallb_forall in F. apply (F c I).
  - reflexivity.
Qed.

Lemma nodes_sit_on_directories_example :
  isdir sysfs (fs_path port1) = true /\
  Forall (fun i => isdir sysfs (iface_fs_path i) = true)
         [Interface "/sys/bus/usb/devices/usb1/1-1/1-1:1.0"] /\
  Port_init sysfs (Py.PyStr "9") bus1 "/sys/bus/usb/devices/usb1/1-9"
    = Raise (ValueError "Invalid path given") /\
  fs_path (USB_init "/nowhere") = "/nowhere".
Proof.
  pose proof (nodes_sit_on_directories sysfs)
    as [_ [HP [_ [HG [_ [HI HU]]]]]].
  split; [|split; [|split]].
  - apply (HG bus1 (Py.PyStr "1") port1). reflexivity.
  - apply (HI port1). reflexivity.
  - apply (HP (Py.PyStr "9") bus1 "/sys/bus/usb/devices/usb1/1-9").
  - apply (HU "/nowhere"). reflexivity.
Defined.

(** ** More on the attribute values *)

Lemma all_in_append (chars s1 s2 : string) :
  all_in chars (s1 ++ s2) = all_in chars s1 && all_in chars s2.
Proof.
  induction s1 as [|a s1 IH]; simpl; [reflexivity|].
  rewrite IH, andb_assoc. reflexivity.
Qed.

Lemma all_in_newline_whitespace (s : string) :
  all_in (String Py.nl "") s = true -> all_in Py.whitespace s = true.
Proof.
  induction s as [|a s IH]; [reflexivity|].
  cbn [all_in].
  change (Py.mem a (String Py.nl "")) with (Ascii.eqb Py.nl a || false).
  rewrite orb_false_r. intros H. apply andb_true_iff in H as [Ha Hs].
  apply Ascii.eqb_eq in Ha. subst a. rewrite IH by auto. reflexivity.
Qed.

Lemma lstrip_split (chars s : string) :
  exists l, s = l ++ Py.lstrip chars s /\ all_in chars l = true.
Proof.
  induction s as [|a s [l [E A]]]; simpl.
  - exists "". auto.
  - destruct (Py.mem a chars) eqn:M.
    + exists (String a l). simpl. rewrite M, A.
      split; [f_equal; exact E | reflexivity].
    + exists "". auto.
Qed.

Lemma lstrip_first (chars s : string) (c : ascii) :
  first_char (Py.lstrip chars s) = Some c -> Py.mem c chars = false.
Proof.
  induction s as [|a s IH]; simpl; [discriminate|].
  destruct (Py.mem a chars) eqn:M; auto.
  simpl. intros [= <-]. exact M.
Qed.

Lemma rstrip_split (chars s : string) :
  exists r, s = Py.rstrip chars s ++ r /\ all_in chars r = true.
Proof.
  induction s as [|a s [r [E A]]]; simpl.
  - exists "". auto.
  - destruct (Py.rstrip chars s) as [|b u] eqn:R.
    + destruct (Py.mem a chars) eqn:M.
      * exists (String a r). simpl in *. rewrite M, A.
        split; [f_equal; exact E | reflexivity].
      * exists r. simpl in *. split; [f_equal; exact E | exact A].
    + exists r. simpl in *. split; [f_equal; exact E | exact A].
Qed.

Lemma rstrip_last (chars s : string) (c : ascii) :
  last_char (Py.rstrip chars s) = Some c -> Py.mem c chars = false.
Proof.
  induction s as [|a s IH]; simpl; [discriminate|].
  destruct (Py.rstrip chars s) as [|b u] eqn:R.
  - destruct (Py.mem a chars) eqn:M; simpl; [discriminate|].
    intros [= <-]. exact M.
  - intros H. apply IH. exact H.
Qed.

Lemma rstrip_first (chars s : string) (c : ascii) :
  first_char (Py.rstrip chars s) = Some c -> first_char s = Some c.
Proof.
  destruct s as [|a s]; simpl; [discriminate|].
  destruct (Py.rstrip chars s); [destruct (Py.mem a chars)|]; simpl;
    auto; discriminate.
Qed.

Lemma strip_split (chars s : string) :
  exists l r, s = l ++ Py.strip chars s ++ r /\
              all_in chars l = true /\ all_in chars r = true.
Proof.
  destruct (lstrip_split chars s) as [l [El Al]].
  destruct (rstrip_split chars (Py.lstrip chars s)) as [r [Er Ar]].
  exists l, r. unfold Py.strip. rewrite <- Er. auto.
Qed.

(** What a [Bus], [Port] or [Interface] returns for an attribute file it
    could read: the content less the white space, newlines among it, at its
    two ends; nothing inside is touched and no white space is left at either
    end. *)
Theorem clean_trims_whitespace (content : string) :
  (exists l r, content = l ++ clean content ++ r /\
               all_in Py.whitespace l = true /\
               all_in Py.whitespace r = true) /\
  (forall c, first_char (clean content) = Some c ->
             Py.mem c Py.whitespace = false) /\
  (forall c, last_char (clean content) = Some c ->
             Py.mem c Py.whitespace = false).
Proof.
  unfold clean. split; [|split].
  - destruct (strip_split (String Py.nl "") content) as [l1 [r1 [E1 [L1 R1]]]].
    destruct (strip_split Py.whitespace (Py.strip (String Py.nl "") content))
      as [l2 [r2 [E2 [L2 R2]]]].
    exists (l1 ++ l2), (r2 ++ r1). split; [|split].
    + rewrite E1 at 1. rewrite E2 at 1. rewrite !append_assoc. reflexivity.
    + rewrite all_in_append, L2, all_in_newline_whitespace; auto.
    + rewrite all_in_append, R2, all_in_newline_whitespace; auto.
  - intros c H. unfold Py.strip in H. apply rstrip_first in H.
    apply lstrip_first in H. exact H.
  - intros c H. unfold Py.strip in H. apply rstrip_last in H. exact H.
Qed.

(** ** Buses below the root *)

(** The entry [usb<digit>] of the root directory is a key of the root, the
    key is the digit, and [self[key]] looks the same entry up again. *)
Theorem USB_iter_getitem_roundtrip
        (fs : filesystem) (self : node) (children : list string) (n : ascii) :
  isdigit n = true ->
  listdir fs (fs_path self) = Some children ->
  In ("usb" ++ String n "") children ->
  (exists ks, USB_iter fs self = Ok ks /\ In (String n "") ks) /\
  USB_child_path self (Py.PyStr (String n "")) =
    OsPath.join (fs_path self) ("usb" ++ String n "").
Proof.
  intros Hn L I. split; [|reflexivity].
  unfold USB_iter, os_listdir. rewrite L. simpl.
  eexists. split; [reflexivity|].
  apply in_map_iff. exists ("usb" ++ String n ""). split; [reflexivity|].
  apply filter_In. split; [exact I|].
  apply re_match_spec. left. apply IS_BUS_shape. eauto.
Qed.

Lemma USB_iter_getitem_roundtrip_example :
  (exists ks, USB_iter sysfs usb = Ok ks /\ In "1" ks) /\
  USB_child_path usb (Py.PyStr "1") = "/sys/bus/usb/devices/usb1".
Proof.
  apply (USB_iter_getitem_roundtrip sysfs usb ["usb1"] "1");
    [reflexivity | reflexivity | simpl; auto].
Defined.

(** ** [Container.get] *)

(** [get(key, default)] answers a missing child with [default] and never
    raises. *)
Theorem get_default (fs : filesystem) (self : node) (key : Py.value)
        (default : option node) :
  get fs self key default =
  if isdir fs (child_path self key) then Ok (Some (child self key))
  else Ok default.
Proof.
  unfold get. rewrite getitem_spec.
  destruct (isdir fs (child_path self key)); reflexivity.
Qed.

(** ** The walk, the other way round *)

Section AggregateSound.

Variable fs : filesystem.

Lemma collect_all_inv (depth : nat) (self : node) (acc l : list interface) :
  isinstance_InterfaceProvider self = true ->
  collect fs false depth self acc = Ok l ->
  exists found, interfaces fs self = Ok found /\ l = (acc ++ found)%list.
Proof.
  intros P. unfold collect. rewrite P.
  destruct (interfaces fs self) as [found|]; simpl; [|discriminate].
  rewrite collect_loop_all. intros [= <-]. eauto.
Qed.

Lemma aggregate_sound (depth : nat) :
  forall self acc l,
    aggregate fs false depth self acc = Ok l ->
    exists below found,
      descendants fs self below /\
      Forall2 (fun n f => interfaces fs n = Ok f) below found /\
      l = (acc ++ concat found)%list.
Proof.
  induction depth as [|d IH]; intros self acc l; simpl; [discriminate|].
  destruct (values fs self) as [cs|] eqn:V; simpl; [|discriminate].
  pose proof (values_providers fs self cs V) as P.
  intros H.
  assert (G : exists below found,
             descendants_list fs cs below /\
             Forall2 (fun n f => interfaces fs n = Ok f) below found /\
             l = (acc ++ concat found)%list).
  { clear V. revert acc l H. induction P as [|c cs Pc P IHcs]; intros acc l; simpl.
    - intros [= <-]. exists [], []. rewrite app_nil_r.
      repeat split; constructor.
    - destruct (collect fs false d c acc) as [a1|] eqn:C; simpl; [|discriminate].
      destruct (aggregate fs false d c a1) as [a2|] eqn:A; simpl; [|discriminate].
      intros H.
      apply collect_all_inv in C as [f [If ->]]; auto.
      apply IH in A as [bc [fc [Dc [Fc ->]]]].
      apply IHcs in H as [br [fr [Dr [Fr ->]]]].
      exists (c :: bc ++ br)%list, (f :: fc ++ fr)%list. split; [|split].
      + constructor; auto.
      + constructor; auto. apply Forall2_app; auto.
      + simpl. rewrite concat_app, !app_assoc. reflexivity. }
  destruct G as [below [found [D [F E]]]].
  exists below, found. split; [|auto].
  econstructor; eauto.
Qed.

End AggregateSound.

(** Whatever [aggregated_interfaces()] returns is the interfaces of the
    buses and ports below the root, node by node in the order of the walk. *)
Theorem aggregated_interfaces_sound
        (fs : filesystem) (depth : nat) (path : string) (l : list interface) :
  aggregated_interfaces fs depth (USB path) false = Ok l ->
  exists below found,
    descendants fs (USB path) below /\
    Forall2 (fun n f => interfaces fs n = Ok f) below found /\
    l = concat found.
Proof.
  unfold aggregated_interfaces. simpl. intros H.
  apply aggregate_sound in H as [below [found [D [F ->]]]]. eauto.
Qed.

Lemma aggregated_interfaces_sound_example :
  exists below found,
    descendants sysfs usb below /\
    Forall2 (fun n f => interfaces sysfs n = Ok f) below found /\
    [Interface "/sys/bus/usb/devices/usb1/1-0:1.0";
     Interface "/sys/bus/usb/devices/usb1/1-1/1-1:1.0";
     Interface "/sys/bus/usb/devices/usb1/1-1/1-1.2/1-1.2:1.0"]
    = concat found.
Proof.
  apply (aggregated_interfaces_sound sysfs 4 USB_FS_ROOT). reflexivity.
Defined.

(** The local function [aggregate], were it started at a bus, would leave
    the interfaces of that bus out: it collects from the children on. *)
Remark aggregate_starts_below :
  interfaces sysfs bus1 = Ok [Interface "/sys/bus/usb/devices/usb1/1-0:1.0"] /\
  aggregate sysfs false 3 bus1 [] =
    Ok [Interface "/sys/bus/usb/devices/usb1/1-1/1-1:1.0";
        Interface "/sys/bus/usb/devices/usb1/1-1/1-1.2/1-1.2:1.0"].
Proof. split; reflexivity. Qed.

(** ** Where the keys of a bus come from *)

(** Every key a bus lists is the port digit of a [<digit>-<digit>] entry of
    its directory; entries of any other form give no key.  (The entry may
    carry a final newline, which then stays in the key.) *)
Theorem Bus_iter_keys
        (fs : filesystem) (self : node) (ks : list string) (k : string) :
  Bus_iter fs self = Ok ks ->
  In k ks ->
  exists children b p,
    listdir fs (fs_path self) = Some children /\
    isdigit b = true /\ isdigit p = true /\
    ((In (String b (String "-" (String p ""))) children /\ k = String p "") \/
     (In (String b (String "-" (String p (String Py.nl "")))) children /\
      k = String p (String Py.nl ""))).
Proof.
  unfold Bus_iter, os_listdir.
  destruct (listdir fs (fs_path self)) as [children|]; simpl; [|discriminate].
  intros [= <-] I. apply in_map_iff in I as [c [E I]].
  apply filter_In in I as [I M].
  apply re_match_spec in M as [M|[t [-> M]]];
    apply IS_BUS_PORT_shape in M as [b [p [Hb [Hp ->]]]];
    exists children, b, p; repeat split; auto; [left|right]; split; auto;
    rewrite <- E.
  - apply (slice_after_first "-" (String b "") (String p "")).
    simpl. rewrite (isdigit_neq b "-"); auto.
  - apply (slice_after_first "-" (String b "") (String p (String Py.nl ""))).
    simpl. rewrite (isdigit_neq b "-"); auto.
Qed.

Lemma Bus_iter_keys_example :
  exists children b p,
    listdir sysfs (fs_path bus1) = Some children /\
    isdigit b = true /\ isdigit p = true /\
    ((In (String b (String "-" (String p ""))) children /\ "1" = String p "") \/
     (In (String b (String "-" (String p (String Py.nl "")))) children /\
      "1" = String p (String Py.nl ""))).
Proof.
  apply (Bus_iter_keys sysfs bus1 ["1"] "1"); [reflexivity | simpl; auto].
Defined.

(** ** Paths and names *)

Lemma take_length_append (p s : string) :
  Py.take (String.length p) (p ++ s) = p.
Proof. induction p as [|a p IH]; simpl; [destruct s|]; congruence. Qed.

Lemma rindex_index (c : ascii) (s : string) (n : nat) :
  Py.rindex c s = Some n -> exists m, Py.index c s = Some m.
Proof.
  revert n. induction s as [|a s IH]; simpl; intros n; [discriminate|].
  destruct (Ascii.eqb a c); [eauto|].
  destruct (Py.rindex c s) as [k|]; [|discriminate].
  intros _. destruct (IH k eq_refl) as [m ->]. eauto.
Qed.

Lemma slice_to_length (p s : string) :
  Py.slice_to (p ++ s) (Z.of_nat (String.length p)) = p.
Proof.
  unfold Py.slice_to, Py.clamp.
  destruct (Z.of_nat (String.length p) <? 0)%Z eqn:E;
    [apply Z.ltb_lt in E; lia|].
  rewrite Nat2Z.id. apply take_length_append.
Qed.

(** [fs_parent] and [fs_name] split a path at its last separator: of
    [p/n], with no separator in [n], they are [p] and [n]; a path without a
    separator has neither. *)
Theorem fs_parent_fs_name_split (p n : string) :
  Py.rindex OsPath.sep n = None ->
  fs_parent (p ++ String OsPath.sep n) = Py.PyStr p /\
  fs_name (p ++ String OsPath.sep n) = Py.PyStr n /\
  fs_name n = Py.PyNone /\ fs_parent n = Py.PyNone.
Proof.
  intros H.
  assert (R : Py.rindex OsPath.sep (p ++ String OsPath.sep n)
              = Some (String.length p)) by (apply rindex_append; auto).
  destruct (rindex_index _ _ _ R) as [m I].
  assert (N : Py.index OsPath.sep n = None).
  { destruct (Py.index OsPath.sep n) as [k|] eqn:E; auto.
    clear - H E. exfalso. revert k E H.
    induction n as [|a n IH]; simpl; intros k; [discriminate|].
    destruct (Py.rindex OsPath.sep n); [discriminate|].
    destruct (Ascii.eqb a OsPath.sep); [discriminate|].
    destruct (Py.index OsPath.sep n) as [j|]; [|discriminate].
    intros _ _. apply (IH j); auto. }
  unfold fs_parent, fs_name, Py.find, Py.rfind. rewrite I, R, N.
  replace (-1 <? Z.of_nat m)%Z with true by (symmetry; apply Z.ltb_lt; lia).
  repeat split.
  - f_equal. apply slice_to_length.
  - f_equal. rewrite slice_from_succ.
    replace (p ++ String OsPath.sep n) with ((p ++ String OsPath.sep "") ++ n)
      by (rewrite append_assoc; reflexivity).
    replace (S (String.length p))
      with (String.length (p ++ String OsPath.sep "")).
    + apply drop_length_append.
    + clear. induction p; simpl; auto.
Qed.

Lemma fs_parent_fs_name_split_example :
  fs_parent (fs_path port1) = Py.PyStr "/sys/bus/usb/devices/usb1" /\
  fs_name (fs_path port1) = Py.PyStr "1-1" /\
  fs_name "1-1" = Py.PyNone /\ fs_parent "1-1" = Py.PyNone.
Proof.
  apply (fs_parent_fs_name_split "/sys/bus/usb/devices/usb1" "1-1").
  reflexivity.
Defined.

Lemma startswith_append_false (n s : string) (c : ascii) :
  Py.rindex c n = None -> n <> "" -> Py.startswith (n ++ s) (String c "") = false.
Proof.
  destruct n as [|a n]; [congruence|]. simpl. intros H _.
  destruct (Py.rindex c n); [discriminate|].
  destruct (Ascii.eqb a c) eqn:E; [discriminate|].
  unfold Py.startswith. simpl.
  destruct (ascii_dec c a) as [->|]; [|reflexivity].
  rewrite Ascii.eqb_refl in E. discriminate.
Qed.

Lemma endswith_append (s : string) (c : ascii) :
  Py.endswith s c = true -> exists q, s = q ++ String c "".
Proof.
  induction s as [|a s IH]; simpl; [discriminate|].
  destruct s as [|b s].
  - intros E. apply Ascii.eqb_eq in E. subst. exists "". reflexivity.
  - intros E. destruct (IH E) as [q ->]. exists (String a q). reflexivity.
Qed.

Lemma rindex_append_none (c : ascii) (s1 s2 : string) :
  Py.rindex c s1 = None -> Py.rindex c s2 = None ->
  Py.rindex c (s1 ++ s2) = None.
Proof.
  intros H1 H2. induction s1 as [|a s1 IH]; simpl in *; auto.
  destruct (Py.rindex c s1); [discriminate|].
  rewrite IH by auto. exact H1.
Qed.

(** The names of nested ports compose: the port [self[key]] of a port whose
    directory name is [n] sits in the directory named [n.key], for every key
    whose text holds no separator: a chain of keys 3, 1 below [1-1] ends in
    [1-1.3.1]. *)
Theorem Port_child_fs_name (self : node) (key : Py.value) (n : string) :
  fs_name (fs_path self) = Py.PyStr n ->
  n <> "" ->
  Py.rindex OsPath.sep n = None ->
  Py.rindex OsPath.sep (Py.format key) = None ->
  fs_path (Port_child self key)
    = fs_path self ++ String OsPath.sep (n ++ "." ++ Py.format key) /\
  fs_name (fs_path (Port_child self key))
    = Py.PyStr (n ++ "." ++ Py.format key).
Proof.
  intros N Hn Rn Rk.
  assert (P : fs_path (Port_child self key)
              = fs_path self ++ String OsPath.sep (n ++ "." ++ Py.format key)).
  { simpl. unfold Port_child_path. rewrite N. simpl. unfold OsPath.join.
    change ("/") with (String OsPath.sep "").
    rewrite startswith_append_false by auto.
    destruct (String.eqb (fs_path self) "") eqn:E.
    - apply String.eqb_eq in E. rewrite E in N. discriminate N.
    - simpl. destruct (Py.endswith (fs_path self) OsPath.sep) eqn:S; [|reflexivity].
      exfalso. apply endswith_append in S as [q Q].
      destruct (fs_parent_fs_name_split q "" eq_refl) as [_ [F _]].
      rewrite <- Q, N in F. injection F as F. auto. }
  split; [exact P|]. rewrite P.
  apply fs_parent_fs_name_split.
  apply rindex_append_none; auto.
  simpl. rewrite Rk. reflexivity.
Qed.

Lemma Port_child_fs_name_example :
  fs_path (Port_child port1_2 (Py.PyInt 7))
    = "/sys/bus/usb/devices/usb1/1-1/1-1.2/1-1.2.7" /\
  fs_name (fs_path (Port_child port1_2 (Py.PyInt 7))) = Py.PyStr "1-1.2.7".
Proof.
  apply (Port_child_fs_name port1_2 (Py.PyInt 7) "1-1.2");
    [reflexivity | discriminate | reflexivity | reflexivity].
Defined.

(** ** [keys], [values] and [items] of a container *)

Lemma getpairs_getitems (fs : filesystem) (self : node) (ks : list string) :
  getitems fs self ks =
  match getpairs fs self ks with
  | Ok l => Ok (map snd l)
  | Raise e => Raise e
  end /\
  forall l, getpairs fs self ks = Ok l ->
            map fst l = ks /\
            forall k c, In (k, c) l ->
                        c = child self (Py.PyStr k) /\
                        isdir fs (child_path self (Py.PyStr k)) = true.
Proof.
  induction ks as [|k ks [IH1 IH2]]; simpl.
  - split; [reflexivity|]. intros l [= <-]. split; [reflexivity|]. intros ? ? [].
  - rewrite IH1. destruct (getitem fs self (Py.PyStr k)) as [c|e] eqn:G; simpl.
    + destruct (getpairs fs self ks) as [l'|e]; simpl.
      * split; [reflexivity|]. intros l [= <-].
        destruct (IH2 l' eq_refl) as [F I]. simpl. split; [congruence|].
        intros k0 c0 [[= <- <-]|H]; [apply getitem_Ok; exact G | auto].
      * split; [reflexivity | discriminate].
    + split; [reflexivity | discriminate].
Qed.

(** The three views of a container agree: [values()] fails as [items()]
    does and otherwise is its second column, [keys()] is its first column,
    and every pair of [items()] is a key with the child built for it, on a
    directory. *)
Theorem items_keys_values (fs : filesystem) (self : node) :
  values fs self =
  match items fs self with
  | Ok l => Ok (map snd l)
  | Raise e => Raise e
  end /\
  forall l, items fs self = Ok l ->
            keys fs self = Ok (map fst l) /\
            forall k c, In (k, c) l ->
                        c = child self (Py.PyStr k) /\
                        name c = Py.PyStr k /\
                        parent c = Some self /\
                        isdir fs (fs_path c) = true.
Proof.
  unfold values, items, keys.
  destruct (iter fs self) as [ks|e]; simpl; [|split; [reflexivity|discriminate]].
  destruct (getpairs_getitems fs self ks) as [H1 H2].
  split; [exact H1|]. intros l H. destruct (H2 l H) as [F I].
  split; [congruence|]. intros k c Hin. destruct (I k c Hin) as [-> D].
  repeat split; try (destruct self; reflexivity).
  rewrite child_fs_path. exact D.
Qed.

(** ** A key without a directory *)

Lemma getitems_KeyError (fs : filesystem) (self : node)
      (before after : list string) (k : string) :
  Forall (fun b => isdir fs (child_path self (Py.PyStr b)) = true) before ->
  isdir fs (child_path self (Py.PyStr k)) = false ->
  getitems fs self (before ++ k :: after) = Raise (KeyError (Py.PyStr k)).
Proof.
  intros F D. induction F as [|b bs Hb F IH]; simpl.
  - rewrite getitem_spec, D. reflexivity.
  - rewrite getitem_spec, Hb, IH. reflexivity.
Qed.

(** [values()] does not skip a key whose directory is missing (or is a
    plain file): the first such key, in the order of the listing, ends the
    call with [KeyError(key)], and a walk that reaches the node ends with
    it too. *)
Theorem values_KeyError
        (fs : filesystem) (self : node) (before after : list string)
        (k : string) :
  iter fs self = Ok (before ++ k :: after)%list ->
  Forall (fun b => isdir fs (child_path self (Py.PyStr b)) = true) before ->
  isdir fs (child_path self (Py.PyStr k)) = false ->
  values fs self = Raise (KeyError (Py.PyStr k)) /\
  items fs self = Raise (KeyError (Py.PyStr k)) /\
  forall tty depth ifaces,
    aggregate fs tty (S depth) self ifaces = Raise (KeyError (Py.PyStr k)).
Proof.
  intros I F D.
  assert (V : values fs self = Raise (KeyError (Py.PyStr k))).
  { unfold values. rewrite I. simpl. apply getitems_KeyError; auto. }
  split; [exact V|]. split.
  - destruct (items_keys_values fs self) as [E _]. rewrite V in E.
    destruct (items fs self); congruence.
  - intros tty depth ifaces. simpl. rewrite V. reflexivity.
Qed.

Lemma values_KeyError_example :
  values strayfs port1 = Raise (KeyError (Py.PyStr "3-4")) /\
  items strayfs port1 = Raise (KeyError (Py.PyStr "3-4")) /\
  forall tty depth ifaces,
    aggregate strayfs tty (S depth) port1 ifaces
    = Raise (KeyError (Py.PyStr "3-4")).
Proof.
  apply (values_KeyError strayfs port1 ["2"] ["5"] "3-4");
    [reflexivity | repeat constructor | reflexivity].
Defined.

(** ** All the interfaces or none *)

Lemma interfaces_loop_outcome (fs : filesystem) (path : string)
      (children : list string) :
  forall acc,
    interfaces_loop fs path children acc =
    if forallb (fun c => isdir fs (OsPath.join path c))
               (filter (re_match IS_INTERFACE) children)
    then Ok (acc ++ map (fun c => Interface (OsPath.join path c))
                        (filter (re_match IS_INTERFACE) children))%list
    else Raise (ValueError "Invalid path given").
Proof.
  induction children as [|c cs IH]; intros acc; simpl.
  - rewrite app_nil_r. reflexivity.
  - destruct (re_match IS_INTERFACE c); simpl; [|apply IH].
    rewrite Interface_init_spec.
    destruct (isdir fs (OsPath.join path c)); simpl; [|reflexivity].
    rewrite IH, <- app_assoc. reflexivity.
Qed.

(** [interfaces] has three outcomes: [OSError] when the directory cannot be
    listed; [ValueError] when some entry with an interface name is not a
    directory, and then no interface at all is returned; otherwise one
    [Interface] for each entry with an interface name. *)
Theorem interfaces_outcome (fs : filesystem) (self : node) :
  interfaces fs self =
  match listdir fs (fs_path self) with
  | None => Raise OSError
  | Some children =>
      if forallb (fun c => isdir fs (OsPath.join (fs_path self) c))
                 (filter (re_match IS_INTERFACE) children)
      then Ok (map (fun c => Interface (OsPath.join (fs_path self) c))
                   (filter (re_match IS_INTERFACE) children))
      else Raise (ValueError "Invalid path given")
  end.
Proof.
  unfold interfaces, os_listdir.
  destruct (listdir fs (fs_path self)) as [children|]; simpl; [|reflexivity].
  apply interfaces_loop_outcome.
Qed.

(** ** What [Interface.tty] can return *)

Lemma find_some_string (f : string -> bool) (l : list string) (c : string) :
  List.find f l = Some c -> In c l /\ f c = true.
Proof. apply find_some. Qed.

(** A device name [Interface.tty] returns starts with [tty], is not [tty]
    itself, and is an entry of a directory that could be listed. *)
Theorem Interface_tty_name
        (fs : filesystem) (depth : nat) (self : interface) (dev : string) :
  Interface_tty fs depth self = Ok (Some dev) ->
  Py.startswith dev "tty" = true /\ dev <> "tty" /\
  exists dir children, listdir fs dir = Some children /\ In dev children.
Proof.
  unfold Interface_tty. generalize (iface_fs_path self) as path.
  induction depth as [|d IH]; intros path; simpl; [discriminate|].
  unfold os_listdir. destruct (listdir fs path) as [children|] eqn:L; simpl;
    [|discriminate].
  rewrite match_tty_loop_find.
  destruct (List.find _ children) as [c|] eqn:F; [|discriminate].
  apply find_some_string in F as [I P].
  destruct (String.eqb c "tty") eqn:E.
  - apply IH.
  - intros [= <-]. apply String.eqb_neq in E. eauto 6.
Qed.

Lemma Interface_tty_name_example :
  Py.startswith "ttyUSB0" "tty" = true /\ "ttyUSB0" <> "tty" /\
  exists dir children, listdir sysfs dir = Some children /\ In "ttyUSB0" children.
Proof.
  apply (Interface_tty_name sysfs 2
           (Interface "/sys/bus/usb/devices/usb1/1-1/1-1.2/1-1.2:1.0")).
  reflexivity.
Defined.

(** When the first entry starting with [tty] is [tty] itself and cannot be
    listed (a plain file, a directory gone meanwhile), [Interface.tty]
    raises [OSError]; it does not give [None], and the entries after it are
    not looked at. *)
Theorem Interface_tty_OSError
        (fs : filesystem) (depth : nat) (self : interface)
        (before after : list string) :
  listdir fs (iface_fs_path self) = Some (before ++ "tty" :: after)%list ->
  forallb (fun c => negb (Py.startswith c "tty")) before = true ->
  listdir fs (OsPath.join (iface_fs_path self) "tty") = None ->
  Interface_tty fs (S (S depth)) self = Raise OSError.
Proof.
  intros L B N. unfold Interface_tty. simpl. unfold os_listdir. rewrite L. simpl.
  rewrite match_tty_loop_find, find_first; auto. simpl. rewrite N. reflexivity.
Qed.

Lemma Interface_tty_OSError_example :
  Interface_tty hubfs 2
    (Interface "/sys/bus/usb/devices/usb1/1-1/1-1.4/1-1.4:1.0")
  = Raise OSError.
Proof.
  apply (Interface_tty_OSError hubfs 0
           (Interface "/sys/bus/usb/devices/usb1/1-1/1-1.4/1-1.4:1.0")
           ["ep_02"] ["ttyUSB1"]);
    reflexivity.
Defined.

(** ** [tty=True] filters the plain result *)

Section TtyFilter.

Variable fs : filesystem.
Variable bound : nat.

Lemma tty_present_mono (depth : nat) (i : interface) (v : option string) :
  depth <= bound ->
  Interface_tty fs depth i = Ok v ->
  tty_present fs bound i = match v with Some _ => true | None => false end.
Proof.
  intros Hle H. unfold tty_present, Interface_tty in *.
  rewrite (match_tty_mono fs depth bound _ v Hle H). reflexivity.
Qed.

Lemma collect_loop_filter (depth : nat) (found : list interface) :
  depth <= bound ->
  forall acc l,
    collect_loop fs true depth found acc = Ok l ->
    l = (acc ++ filter (tty_present fs bound) found)%list.
Proof.
  intros Hle. induction found as [|i found IH]; intros acc l; simpl.
  - intros [= <-]. rewrite app_nil_r. reflexivity.
  - destruct (Interface_tty fs depth i) as [v|] eqn:T; simpl; [|discriminate].
    rewrite (tty_present_mono depth i v Hle T).
    destruct v; intros H; apply IH in H; subst l.
    + rewrite <- app_assoc. reflexivity.
    + reflexivity.
Qed.

Lemma collect_filter (depth : nat) (c : node) (acc l : list interface) :
  depth <= bound ->
  collect fs true depth c acc = Ok l ->
  exists found,
    (forall acc', collect fs false depth c acc' = Ok (acc' ++ found)%list) /\
    l = (acc ++ filter (tty_present fs bound) found)%list.
Proof.
  intros Hle. unfold collect.
  destruct (isinstance_InterfaceProvider c).
  - destruct (interfaces fs c) as [found|]; simpl; [|discriminate].
    intros H. exists found. split.
    + intros acc'. apply collect_loop_all.
    + apply (collect_loop_filter depth found Hle _ _ H).
  - intros [= <-]. exists []. split; intros; rewrite app_nil_r; reflexivity.
Qed.

Lemma aggregate_filter (depth : nat) :
  depth <= bound ->
  forall self acc l,
    aggregate fs true depth self acc = Ok l ->
    exists plain,
      (forall acc', aggregate fs false depth self acc' = Ok (acc' ++ plain)%list) /\
      l = (acc ++ filter (tty_present fs bound) plain)%list.
Proof.
  induction depth as [|d IH]; intros Hle self acc l; simpl; [discriminate|].
  destruct (values fs self) as [cs|]; simpl; [|discriminate].
  revert acc l. induction cs as [|c cs IHcs]; intros acc l; simpl.
  - intros [= <-]. exists []. split; intros; rewrite app_nil_r; reflexivity.
  - destruct (collect fs true d c acc) as [a1|] eqn:C; simpl; [|discriminate].
    destruct (aggregate fs true d c a1) as [a2|] eqn:A; simpl; [|discriminate].
    intros H.
    apply collect_filter in C as [f [Cf ->]]; [|lia].
    apply IH in A as [p1 [A1 ->]]; [|lia].
    apply IHcs in H as [p2 [A2 ->]].
    exists (f ++ p1 ++ p2)%list. split.
    + intros acc'. rewrite Cf. simpl. rewrite A1. simpl. rewrite A2.
      rewrite !app_assoc. reflexivity.
    + rewrite !filter_app, !app_assoc. reflexivity.
Qed.

End TtyFilter.

(** A call with [tty=True] that returns, returns what the call without
    [tty] returns, less the interfaces whose [tty] is [None]: the same
    interfaces in the same order. *)
Theorem aggregated_interfaces_tty_filter
        (fs : filesystem) (depth : nat) (path : string)
        (l : list interface) :
  aggregated_interfaces fs depth (USB path) true = Ok l ->
  exists plain,
    aggregated_interfaces fs depth (USB path) false = Ok plain /\
    l = filter (tty_present fs depth) plain.
Proof.
  unfold aggregated_interfaces. simpl. intros H.
  apply (aggregate_filter fs depth depth (le_n _)) in H as [plain [P ->]].
  exists plain. split; [apply (P [])|reflexivity].
Qed.

Lemma aggregated_interfaces_tty_filter_example :
  exists plain,
    aggregated_interfaces sysfs 5 usb false = Ok plain /\
    [Interface "/sys/bus/usb/devices/usb1/1-1/1-1.2/1-1.2:1.0"]
    = filter (tty_present sysfs 5) plain.
Proof.
  apply (aggregated_interfaces_tty_filter sysfs 5 USB_FS_ROOT). reflexivity.
Defined.

(** ** Where the keys of a port and of the root come from *)

Lemma slice_after_last_inv (c : ascii) (s : string) :
  (exists p k, s = p ++ String c k /\ Py.rindex c k = None /\
               Py.slice_from s (Py.rfind s c + 1) = k) \/
  (Py.rindex c s = None /\ Py.slice_from s (Py.rfind s c + 1) = s).
Proof.
  destruct (Py.rindex c s) as [n|] eqn:R.
  - left. revert n R. induction s as [|a s IH]; simpl; intros n; [discriminate|].
    destruct (Py.rindex c s) as [m|] eqn:R'.
    + intros _. destruct (IH m eq_refl) as [p [k [-> [Hk E]]]].
      exists (String a p), k. repeat split; auto.
      apply (slice_after_last c (String a p) k Hk).
    + destruct (Ascii.eqb a c) eqn:E; [|discriminate]. intros _.
      apply Ascii.eqb_eq in E. subst a. exists "", s. repeat split; auto.
      apply (slice_after_last c "" s R').
  - right. split; [reflexivity|]. apply slice_after_none. exact R.
Qed.

(** Every key a port lists comes from an entry [IS_SUB_PORT] matches: it is
    the text after the last dot of the entry, or, for an entry without a dot
    (a name like [3-4], which the pattern lets through), the whole entry.
    Such an entry without a dot is always a key. *)
Theorem Port_iter_keys
        (fs : filesystem) (self : node) (children ks : list string) :
  listdir fs (fs_path self) = Some children ->
  Port_iter fs self = Ok ks ->
  (forall k, In k ks ->
             exists entry,
               In entry children /\ re_match IS_SUB_PORT entry = true /\
               ((exists p, entry = p ++ String "." k /\ Py.rindex "." k = None) \/
                (Py.rindex "." entry = None /\ k = entry))) /\
  (forall b p, isdigit b = true -> isdigit p = true ->
               In (String b (String "-" (String p ""))) children ->
               In (String b (String "-" (String p ""))) ks).
Proof.
  unfold Port_iter, os_listdir. intros L. rewrite L. simpl. intros [= <-]. split.
  - intros k I. apply in_map_iff in I as [entry [E I]].
    apply filter_In in I as [I M]. exists entry. repeat split; auto.
    destruct (slice_after_last_inv "." entry) as [[p [k' [-> [Hk S]]]]|[N S]].
    + left. exists p. rewrite S in E. subst k'. auto.
    + right. rewrite S in E. auto.
  - intros b p Hb Hp I. apply in_map_iff.
    exists (String b (String "-" (String p ""))). split.
    + apply slice_after_none. simpl.
      rewrite (isdigit_neq p "."), (isdigit_neq b "."); auto.
    + apply filter_In. split; [exact I|]. apply re_match_spec. left.
      apply IS_SUB_PORT_shape. exists b, p, "". repeat split; auto. constructor.
Qed.

Lemma Port_iter_keys_example :
  (forall k, In k ["2"; "3-4"; "5"] ->
             exists entry,
               In entry ["1-1.2"; "3-4"; "1-1.5"] /\
               re_match IS_SUB_PORT entry = true /\
               ((exists p, entry = p ++ String "." k /\ Py.rindex "." k = None) \/
                (Py.rindex "." entry = None /\ k = entry))) /\
  (forall b p, isdigit b = true -> isdigit p = true ->
               In (String b (String "-" (String p ""))) ["1-1.2"; "3-4"; "1-1.5"] ->
               In (String b (String "-" (String p ""))) ["2"; "3-4"; "5"]).
Proof.
  apply (Port_iter_keys strayfs port1); reflexivity.
Defined.

(** ** device.py: [DeviceNode.path] *)

Lemma Device_path_loop_app (c : Device.DeviceNode) :
  forall x acc,
    Device.path_loop c (x ++ acc) =
    Device.fmap (fun l => l ++ acc)%list (Device.path_loop c x).
Proof.
  induction c using Device.DeviceNode_mut
    with (P0 := fun up =>
                  match up with
                  | Device.Parent above =>
                      forall x acc,
                        Device.path_loop above (x ++ acc) =
                        Device.fmap (fun l => l ++ acc)%list
                                    (Device.path_loop above x)
                  | Device.Value _ => True
                  end).
  - intros x acc. simpl.
    match goal with |- context [if ?r then _ else _] => destruct r end;
      [reflexivity|].
    match goal with H : match ?up with _ => _ end |- _ =>
      destruct up as [v|above] end; [reflexivity|].
    apply (IHc (Device.own_id above :: x) acc).
  - exact I.
  - exact IHc.
Qed.

(** [path] is the list of ids from the root down: a root has its own id
    alone; a node whose parent is a node has the parent's path, then its own
    id; a node that is no root and whose parent is an id or a path string
    has no path, the walk ends in [AttributeError]. *)
Theorem Device_path_chain
        (id : Py.value) (p : string) (up : Device.parent_ref)
        (above : Device.DeviceNode) (v : Py.value) :
  Device.path (Device.Node id p up true) = Device.Return [id] /\
  Device.path (Device.Node id p (Device.Parent above) false) =
    Device.fmap (fun l => l ++ [id])%list (Device.path above) /\
  Device.path (Device.Node id p (Device.Value v) false) =
    Device.Throw (Device.AttributeError "own_id").
Proof.
  repeat split.
  unfold Device.path. simpl.
  apply (Device_path_loop_app above [Device.own_id above] [id]).
Qed.

(** ** device.py: [keys], [values], [items] *)

Lemma Device_keys_loop_items_loop (self : Device.DeviceNode)
      (nodes : list string) :
  forall res,
    Device.keys_loop self nodes (map fst res) =
    Device.fmap (map fst) (Device.items_loop self nodes res).
Proof.
  induction nodes as [|node rest IH]; intros res; simpl; [reflexivity|].
  destruct (Device.is_root self && re_match Device.PARENT node).
  - destruct (Device.rsplit_last node "-") as [r|]; simpl; [|reflexivity].
    destruct (Device.to_int r) as [z|]; simpl; [|reflexivity].
    rewrite <- IH, map_app. reflexivity.
  - destruct (re_match Device.CHILD node); [|apply IH].
    destruct (Device.rsplit_last node ".") as [r|]; simpl; [|reflexivity].
    destruct (Device.to_int r) as [z|]; simpl; [|reflexivity].
    rewrite <- IH, map_app. reflexivity.
Qed.

Lemma Device_items_loop_made (self : Device.DeviceNode)
      (nodes : list string) :
  forall res l,
    Device.items_loop self nodes res = Device.Return l ->
    forall k dev,
      In (k, dev) l ->
      In (k, dev) res \/
      exists node, In node nodes /\ dev = Device.make self (Py.PyInt k) node.
Proof.
  induction nodes as [|node rest IH]; intros res l; simpl.
  - intros [= <-]. auto.
  - assert (step : forall z,
               Device.items_loop self rest
                 (res ++ [(z, Device.make self (Py.PyInt z) node)])
               = Device.Return l ->
               forall k dev,
                 In (k, dev) l ->
                 In (k, dev) res \/
                 exists n, (node = n \/ In n rest) /\
                           dev = Device.make self (Py.PyInt k) n).
    { intros z H k dev I. destruct (IH _ _ H k dev I) as [J|[n [J ->]]].
      - apply in_app_or in J as [J|[[= <- <-]|[]]]; eauto.
      - eauto. }
    destruct (Device.is_root self && re_match Device.PARENT node).
    + destruct (Device.rsplit_last node "-") as [r|]; simpl; [|discriminate].
      destruct (Device.to_int r) as [z|]; simpl; [|discriminate]. apply step.
    + destruct (re_match Device.CHILD node).
      * destruct (Device.rsplit_last node ".") as [r|]; simpl; [|discriminate].
        destruct (Device.to_int r) as [z|]; simpl; [|discriminate]. apply step.
      * intros H k dev I. destruct (IH _ _ H k dev I) as [J|[n [J ->]]]; eauto.
Qed.

(** [keys()] and [values()] are the two columns of [items()], and fail as it
    does; every node of [items()] carries its key as id, lies at an entry of
    the directory, is no root and has the path string of [self] as parent,
    so that its own [path] raises [AttributeError]. *)
Theorem Device_items_keys_values
        (fs : filesystem) (self : Device.DeviceNode) :
  Device.keys fs self = Device.fmap (map fst) (Device.items fs self) /\
  Device.values fs self = Device.fmap (map snd) (Device.items fs self) /\
  forall l k dev,
    Device.items fs self = Device.Return l -> In (k, dev) l ->
    Device.own_id dev = Py.PyInt k /\
    Device.is_root dev = false /\
    Device.parent dev = Device.Value (Py.PyStr (Device.fs_path self)) /\
    Device.path dev = Device.Throw (Device.AttributeError "own_id") /\
    exists nodes node,
      listdir fs (Device.fs_path self) = Some nodes /\ In node nodes /\
      Device.fs_path dev = OsPath.join (Device.fs_path self) node.
Proof.
  unfold Device.keys, Device.values, Device.items, Device.os_listdir.
  destruct (listdir fs (Device.fs_path self)) as [nodes|]; simpl.
  - split; [apply (Device_keys_loop_items_loop self nodes [])|].
    split; [reflexivity|].
    intros l k dev H I.
    destruct (Device_items_loop_made self nodes [] l H k dev I)
      as [[]|[node [J ->]]].
    repeat split. eauto.
  - split; [reflexivity|]. split; [reflexivity|]. intros l k dev H. discriminate H.
Qed.

Lemma Device_items_loop_app (self : Device.DeviceNode) (a b : list string) :
  forall res,
    Device.items_loop self (a ++ b) res =
    Device.and_then (Device.items_loop self a res)
                    (Device.items_loop self b).
Proof.
  induction a as [|node a IH]; intros res; simpl; [reflexivity|].
  destruct (Device.is_root self && re_match Device.PARENT node).
  - destruct (Device.rsplit_last node "-") as [r|]; simpl; [|reflexivity].
    destruct (Device.to_int r) as [z|]; simpl; [|reflexivity]. apply IH.
  - destruct (re_match Device.CHILD node); [|apply IH].
    destruct (Device.rsplit_last node ".") as [r|]; simpl; [|reflexivity].
    destruct (Device.to_int r) as [z|]; simpl; [|reflexivity]. apply IH.
Qed.

(** An entry made of digits, dashes and dots but without a dot, other than
    a [<digit>-<digit>] entry of a root, ends [items()], [keys()] and
    [values()] with [IndexError]: a root with a port [1-10] cannot be
    listed. *)
Theorem Device_items_IndexError
        (fs : filesystem) (self : Device.DeviceNode)
        (before after : list string) (node : string)
        (res : list (Z * Device.DeviceNode)) :
  listdir fs (Device.fs_path self) = Some (before ++ node :: after)%list ->
  Device.items_loop self before [] = Device.Return res ->
  Device.is_root self && re_match Device.PARENT node = false ->
  re_match Device.CHILD node = true ->
  Py.rindex "." node = None ->
  Device.items fs self = Device.Throw Device.IndexError /\
  Device.keys fs self = Device.Throw Device.IndexError /\
  Device.values fs self = Device.Throw Device.IndexError.
Proof.
  intros L B P C R.
  assert (I : Device.items fs self = Device.Throw Device.IndexError).
  { unfold Device.items, Device.os_listdir. rewrite L. simpl.
    rewrite Device_items_loop_app, B. simpl. rewrite P, C.
    unfold Device.rsplit_last. rewrite R. reflexivity. }
  destruct (Device_items_keys_values fs self) as [K [V _]].
  rewrite K, V, I. auto.
Qed.

Lemma Device_items_IndexError_example :
  Device.items hubfs root1 = Device.Throw Device.IndexError /\
  Device.keys hubfs root1 = Device.Throw Device.IndexError /\
  Device.values hubfs root1 = Device.Throw Device.IndexError.
Proof.
  apply (Device_items_IndexError hubfs root1
           ["1-0:1.0"; "1-1"; "1-2"] ["idVendor"] "1-10"
           [(1%Z, Device.make root1 (Py.PyInt 1) "1-1");
            (2%Z, Device.make root1 (Py.PyInt 2) "1-2")]);
    reflexivity.
Defined.

(** ** device.py: [__getitem__] *)

Lemma Device_getitem_loop_skip (self : Device.DeviceNode) (key : Py.value)
      (before rest : list string) :
  forallb (fun n => negb (re_match Device.PARENT n)
                    && negb (re_match Device.CHILD n)) before = true ->
  Device.getitem_loop self key (before ++ rest) =
  Device.getitem_loop self key rest.
Proof.
  induction before as [|n before IH]; simpl; intros H; [reflexivity|].
  apply andb_true_iff in H as [H1 H2]. apply andb_true_iff in H1 as [P C].
  apply negb_true_iff in P. apply negb_true_iff in C.
  unfold Device.getitem_step, Device.getitem_child. rewrite P, C. auto.
Qed.

(** [self[key]] raises [IndexError] at the first entry made of digits,
    dashes and dots when that entry has no dot and is not the
    [<digit>-<digit>] entry of the key: below a root only the port listed
    first can be fetched. *)
Theorem Device_getitem_IndexError
        (fs : filesystem) (self : Device.DeviceNode) (key : Py.value)
        (before after : list string) (node : string) :
  listdir fs (Device.fs_path self) = Some (before ++ node :: after)%list ->
  forallb (fun n => negb (re_match Device.PARENT n)
                    && negb (re_match Device.CHILD n)) before = true ->
  re_match Device.CHILD node = true ->
  Py.rindex "." node = None ->
  (re_match Device.PARENT node = true ->
   exists z, Device.and_then (Device.rsplit_last node "-") Device.to_int
             = Device.Return z /\ Device.key_is key z = false) ->
  Device.getitem fs self key = Device.Throw Device.IndexError.
Proof.
  intros L B C R P. unfold Device.getitem, Device.os_listdir. rewrite L. simpl.
  rewrite Device_getitem_loop_skip by exact B. simpl.
  assert (G : forall next,
             Device.getitem_child self key node next
             = Device.Throw Device.IndexError).
  { intros next. unfold Device.getitem_child, Device.rsplit_last.
    rewrite C, R. reflexivity. }
  unfold Device.getitem_step.
  destruct (re_match Device.PARENT node); [|apply G].
  destruct (P eq_refl) as [z [E K]].
  destruct (Device.rsplit_last node "-") as [r|]; simpl in E; [|discriminate].
  unfold Device.to_int in E. destruct (Device.int r) as [z'|]; [|discriminate].
  injection E as ->. rewrite K. apply G.
Qed.

Lemma Device_getitem_IndexError_example :
  Device.getitem hubfs root1 (Py.PyInt 2) = Device.Throw Device.IndexError.
Proof.
  apply (Device_getitem_IndexError hubfs root1 (Py.PyInt 2)
           ["1-0:1.0"] ["1-2"; "1-10"; "idVendor"] "1-1");
    try reflexivity.
  intros _. exists 1%Z. split; reflexivity.
Defined.

(** In a directory whose entries are as below a device (none of the form
    [<digit>-<digit>], and those made of digits, dashes and dots ending in a
    dot and a number), [self[key]] is the node for the first entry whose
    last number equals the key, with the key as its id, and [None] when
    there is no such entry: a missing key raises nothing. *)
Theorem Device_getitem_first_match
        (fs : filesystem) (self : Device.DeviceNode) (key : Py.value)
        (nodes : list string) :
  listdir fs (Device.fs_path self) = Some nodes ->
  forallb Device.plain_child nodes = true ->
  Device.getitem fs self key =
  Device.Return
    match List.find (Device.fetches key) nodes with
    | Some node => Device.Found (Device.make self key node)
    | None => Device.Nothing
    end.
Proof.
  intros L. unfold Device.getitem, Device.os_listdir. rewrite L. simpl. clear L.
  induction nodes as [|n nodes IH]; simpl; intros H; [reflexivity|].
  apply andb_true_iff in H as [H1 H2]. specialize (IH H2).
  unfold Device.plain_child in H1. apply andb_true_iff in H1 as [P C].
  apply negb_true_iff in P.
  unfold Device.getitem_step, Device.getitem_child, Device.fetches.
  rewrite P, IH.
  destruct (re_match Device.CHILD n); simpl in *; [|reflexivity].
  unfold Device.last_number, Device.to_int in *.
  destruct (Device.rsplit_last n ".") as [r|]; simpl in *; [|discriminate].
  destruct (Device.int r) as [z|]; [|discriminate].
  destruct (Device.key_is key z); reflexivity.
Qed.

Lemma Device_getitem_first_match_example :
  Device.getitem hubfs dev1_1 (Py.PyInt 4) =
    Device.Return (Device.Found (Device.make dev1_1 (Py.PyInt 4) "1-1.4")) /\
  Device.getitem hubfs dev1_1 (Py.PyInt 9) = Device.Return Device.Nothing.
Proof.
  split.
  - apply (Device_getitem_first_match hubfs dev1_1 (Py.PyInt 4)
             ["1-1:1.0"; "1-1.3"; "1-1.4"; "power"]); reflexivity.
  - apply (Device_getitem_first_match hubfs dev1_1 (Py.PyInt 9)
             ["1-1:1.0"; "1-1.3"; "1-1.4"; "power"]); reflexivity.
Defined.

Lemma Device_getitem_loop_plain (self : Device.DeviceNode) (key : Py.value)
      (before rest : list string) :
  forallb Device.plain_child before = true ->
  List.find (Device.fetches key) before = None ->
  Device.getitem_loop self key (before ++ rest) =
  Device.getitem_loop self key rest.
Proof.
  induction before as [|n before IH]; simpl; intros H F; [reflexivity|].
  apply andb_true_iff in H as [H1 H2].
  destruct (Device.fetches key n) eqn:E; [discriminate|].
  rewrite (IH H2 F).
  unfold Device.plain_child in H1. apply andb_true_iff in H1 as [P C].
  apply negb_true_iff in P.
  unfold Device.getitem_step, Device.getitem_child, Device.fetches in *.
  rewrite P.
  destruct (re_match Device.CHILD n); simpl in *; [|reflexivity].
  unfold Device.last_number, Device.to_int in *.
  destruct (Device.rsplit_last n ".") as [r|]; simpl in *; [|discriminate].
  destruct (Device.int r) as [z|]; [|discriminate].
  rewrite E. reflexivity.
Qed.

(** An entry made of digits, dashes and dots whose text after the last dot
    is no number makes [self[key]] return the string ["key not found"],
    whatever the key, also when an entry further on has the key. *)
Theorem Device_getitem_key_not_found
        (fs : filesystem) (self : Device.DeviceNode) (key : Py.value)
        (before after : list string) (node r : string) :
  listdir fs (Device.fs_path self) = Some (before ++ node :: after)%list ->
  forallb Device.plain_child before = true ->
  List.find (Device.fetches key) before = None ->
  re_match Device.PARENT node = false ->
  re_match Device.CHILD node = true ->
  Device.rsplit_last node "." = Device.Return r ->
  Device.int r = None ->
  Device.getitem fs self key = Device.Return Device.KeyNotFound.
Proof.
  intros L B F P C R I. unfold Device.getitem, Device.os_listdir.
  rewrite L. simpl. rewrite Device_getitem_loop_plain by auto. simpl.
  unfold Device.getitem_step, Device.getitem_child. rewrite P, C, R, I.
  reflexivity.
Qed.

Lemma Device_getitem_key_not_found_example :
  Device.getitem
    (table_fs [("/d", Directory ["1-1.2"; "1-1.3-4"; "1-1.5"])])
    (Device.Node (Py.PyInt 1) "/d" (Device.Value (Py.PyStr "/")) false)
    (Py.PyInt 5)
  = Device.Return Device.KeyNotFound.
Proof.
  apply (Device_getitem_key_not_found
           (table_fs [("/d", Directory ["1-1.2"; "1-1.3-4"; "1-1.5"])])
           (Device.Node (Py.PyInt 1) "/d" (Device.Value (Py.PyStr "/")) false)
           (Py.PyInt 5) ["1-1.2"] ["1-1.5"] "1-1.3-4" "3-4");
    reflexivity.
Defined.

Lemma Device_getitem_loop_found (self : Device.DeviceNode) (key : Py.value)
      (nodes : list string) (dev : Device.DeviceNode) :
  Device.getitem_loop self key nodes = Device.Return (Device.Found dev) ->
  exists node z,
    In node nodes /\ dev = Device.make self key node /\
    Device.key_is key z = true /\ Device.numbered node z.
Proof.
  induction nodes as [|n nodes IH]; simpl; [discriminate|].
  unfold Device.getitem_step, Device.getitem_child.
  assert (next : Device.getitem_loop self key nodes
                 = Device.Return (Device.Found dev) ->
                 exists node z,
                   (n = node \/ In node nodes) /\
                   dev = Device.make self key node /\
                   Device.key_is key z = true /\ Device.numbered node z).
  { intros H. destruct (IH H) as [node [z [I R]]]. exists node, z. auto. }
  assert (second :
            match Device.rsplit_last n "." with
            | Device.Throw e => Device.Throw e
            | Device.Return node_r =>
                match Device.int node_r with
                | None => Device.Return Device.KeyNotFound
                | Some z =>
                    if Device.key_is key z
                    then Device.Return (Device.Found (Device.make self key n))
                    else Device.getitem_loop self key nodes
                end
            end = Device.Return (Device.Found dev) ->
            re_match Device.CHILD n = true ->
            exists node z,
              (n = node \/ In node nodes) /\
              dev = Device.make self key node /\
              Device.key_is key z = true /\ Device.numbered node z).
  { intros H C.
    destruct (Device.rsplit_last n ".") as [r|] eqn:R; [|discriminate].
    destruct (Device.int r) as [z|] eqn:I; [|discriminate].
    destruct (Device.key_is key z) eqn:K; [|exact (next H)].
    injection H as <-. exists n, z. repeat split; auto.
    right. split; [exact C|].
    unfold Device.last_number, Device.to_int. rewrite R. simpl. rewrite I.
    reflexivity. }
  destruct (re_match Device.PARENT n) eqn:P.
  - destruct (Device.rsplit_last n "-") as [r|] eqn:R; [|discriminate].
    destruct (Device.int r) as [z|] eqn:I; [|discriminate].
    destruct (Device.key_is key z) eqn:K.
    + intros [= <-]. exists n, z. repeat split; auto.
      left. split; [exact P|].
      unfold Device.to_int. rewrite R. simpl. rewrite I. reflexivity.
    + destruct (re_match Device.CHILD n) eqn:C; [|exact next].
      intros H. exact (second H eq_refl).
  - destruct (re_match Device.CHILD n) eqn:C; [|exact next].
    intros H. exact (second H eq_refl).
Qed.

(** A node [self[key]] returns has the key as its id and lies at an entry of
    the directory whose number, after the last dash of a [<digit>-<digit>]
    name or after the last dot of a name of digits, dashes and dots, the key
    equals; it is no root and its parent is a path string, so its [path]
    raises [AttributeError]. *)
Theorem Device_getitem_found
        (fs : filesystem) (self : Device.DeviceNode) (key : Py.value)
        (dev : Device.DeviceNode) :
  Device.getitem fs self key = Device.Return (Device.Found dev) ->
  Device.own_id dev = key /\
  Device.is_root dev = false /\
  Device.parent dev = Device.Value (Py.PyStr (Device.fs_path self)) /\
  Device.path dev = Device.Throw (Device.AttributeError "own_id") /\
  exists nodes node z,
    listdir fs (Device.fs_path self) = Some nodes /\ In node nodes /\
    Device.numbered node z /\ Device.key_is key z = true /\
    Device.fs_path dev = OsPath.join (Device.fs_path self) node.
Proof.
  unfold Device.getitem, Device.os_listdir.
  destruct (listdir fs (Device.fs_path self)) as [nodes|]; simpl; [|discriminate].
  intros H. apply Device_getitem_loop_found in H as [node [z [I [-> [K M]]]]].
  repeat split. exists nodes, node, z. auto.
Qed.

Lemma Device_getitem_found_example :
  Device.own_id (Device.make dev1_1 (Py.PyObject "4.0" (Z.eqb 4)) "1-1.4")
    = Py.PyObject "4.0" (Z.eqb 4) /\
  Device.is_root (Device.make dev1_1 (Py.PyObject "4.0" (Z.eqb 4)) "1-1.4")
    = false /\
  Device.parent (Device.make dev1_1 (Py.PyObject "4.0" (Z.eqb 4)) "1-1.4")
    = Device.Value (Py.PyStr (Device.fs_path dev1_1)) /\
  Device.path (Device.make dev1_1 (Py.PyObject "4.0" (Z.eqb 4)) "1-1.4")
    = Device.Throw (Device.AttributeError "own_id") /\
  exists nodes node z,
    listdir hubfs (Device.fs_path dev1_1) = Some nodes /\ In node nodes /\
    Device.numbered node z /\
    Device.key_is (Py.PyObject "4.0" (Z.eqb 4)) z = true /\
    Device.fs_path (Device.make dev1_1 (Py.PyObject "4.0" (Z.eqb 4)) "1-1.4")
    = OsPath.join (Device.fs_path dev1_1) node.
Proof.
  apply (Device_getitem_found hubfs dev1_1 (Py.PyObject "4.0" (Z.eqb 4))).
  reflexivity.
Defined.

(** ** device.py: [DeviceNode.tty] and the attribute readers *)

Lemma DeviceNode_tty_inner_spec (inner : list string) (f : string) :
  DeviceNode_tty_inner inner = Some f ->
  In f inner /\ Py.startswith f "tty" = true.
Proof.
  induction inner as [|x inner IH]; simpl; [discriminate|].
  destruct (Py.startswith x "tty") eqn:E.
  - intros [= <-]. auto.
  - intros H. destruct (IH H). auto.
Qed.

(** A name [DeviceNode.tty] returns starts with [tty] (it may be [tty]
    itself) and is an entry of a directory of the device whose name has a
    [:<digit><any character><digit>] in it. *)
Theorem DeviceNode_tty_name
        (fs : filesystem) (path : string) (f : string) :
  DeviceNode_tty fs path = Ok (Some f) ->
  Py.startswith f "tty" = true /\
  exists filenames carrier inner,
    listdir fs path = Some filenames /\ In carrier filenames /\
    prefix_match TTY carrier = true /\
    listdir fs (OsPath.join path carrier) = Some inner /\ In f inner.
Proof.
  unfold DeviceNode_tty, os_listdir.
  destruct (listdir fs path) as [filenames|]; simpl; [|discriminate].
  intros H.
  assert (G : Py.startswith f "tty" = true /\
              exists carrier inner,
                In carrier filenames /\ prefix_match TTY carrier = true /\
                listdir fs (OsPath.join path carrier) = Some inner /\
                In f inner).
  { induction filenames as [|x filenames IH];
      cbn [DeviceNode_tty_loop] in H; [discriminate|].
    destruct (prefix_match TTY x) eqn:M.
    - unfold os_listdir in H.
      destruct (listdir fs (OsPath.join path x)) as [inner|] eqn:L;
        cbn [bind] in H; [|discriminate].
      destruct (DeviceNode_tty_inner inner) as [g|] eqn:I.
      + injection H as ->. apply DeviceNode_tty_inner_spec in I as [I S].
        split; [exact S|]. exists x, inner. simpl. auto.
      + destruct (IH H) as [S [c [i [J R]]]]. split; [exact S|].
        exists c, i. simpl. auto.
    - destruct (IH H) as [S [c [i [J R]]]]. split; [exact S|].
      exists c, i. simpl. auto. }
  destruct G as [S [c [i R]]]. split; [exact S|]. exists filenames, c, i. auto.
Qed.

Lemma DeviceNode_tty_name_example :
  Py.startswith "tty" "tty" = true /\
  exists filenames carrier inner,
    listdir sysfs (fs_path port1_2) = Some filenames /\ In carrier filenames /\
    prefix_match TTY carrier = true /\
    listdir sysfs (OsPath.join (fs_path port1_2) carrier) = Some inner /\
    In "tty" inner.
Proof.
  apply (DeviceNode_tty_name sysfs (fs_path port1_2) "tty"). reflexivity.
Defined.

(** [DeviceNode.idVendor] and [idProduct] raise [IOError] when the file
    cannot be read; otherwise they return the content less the newlines and
    NUL bytes at its two ends: nothing inside is touched, white space other
    than a newline stays, and the value neither starts nor ends with a
    newline or a NUL. *)
Theorem DeviceNode_read_outcome (fs : filesystem) (path attr : string) :
  match read fs (OsPath.join path attr) with
  | inl _ => DeviceNode_read fs path attr = Raise IOError
  | inr content =>
      exists v l r,
        DeviceNode_read fs path attr = Ok v /\
        content = l ++ v ++ r /\
        all_in (String Py.nl (String Py.nul "")) l = true /\
        all_in (String Py.nl (String Py.nul "")) r = true /\
        (forall c, first_char v = Some c ->
                   Py.mem c (String Py.nl (String Py.nul "")) = false) /\
        (forall c, last_char v = Some c ->
                   Py.mem c (String Py.nl (String Py.nul "")) = false)
  end.
Proof.
  unfold DeviceNode_read.
  destruct (read fs (OsPath.join path attr)) as [e|content]; [reflexivity|].
  destruct (strip_split (String Py.nl (String Py.nul "")) content)
    as [l [r [E [L R]]]].
  eexists _, l, r. split; [reflexivity|]. repeat split; auto.
  - intros c H. unfold Py.strip in H. apply rstrip_first in H.
    apply lstrip_first in H. exact H.
  - intros c H. unfold Py.strip in H. apply rstrip_last in H. exact H.
Qed.

(** ** Where the keys of the root come from *)

(** Every key the root lists is the digit of a [usb<digit>] entry of its
    directory (with a final newline kept when the entry has one). *)
Theorem USB_iter_keys
        (fs : filesystem) (self : node) (ks : list string) (k : string) :
  USB_iter fs self = Ok ks ->
  In k ks ->
  exists children n,
    listdir fs (fs_path self) = Some children /\ isdigit n = true /\
    ((In ("usb" ++ String n "") children /\ k = String n "") \/
     (In ("usb" ++ String n (String Py.nl "")) children /\
      k = String n (String Py.nl ""))).
Proof.
  unfold USB_iter, os_listdir.
  destruct (listdir fs (fs_path self)) as [children|]; simpl; [|discriminate].
  intros [= <-] I. apply in_map_iff in I as [c [E I]].
  apply filter_In in I as [I M].
  apply re_match_spec in M as [M|[t [-> M]]];
    apply IS_BUS_shape in M as [n [Hn ->]];
    exists children, n; (split; [reflexivity|]); (split; [exact Hn|]).
  - left. split; [exact I|]. rewrite <- E. reflexivity.
  - right. split; [exact I|]. rewrite <- E. reflexivity.
Qed.

Lemma USB_iter_keys_example :
  exists children n,
    listdir sysfs (fs_path usb) = Some children /\ isdigit n = true /\
    ((In ("usb" ++ String n "") children /\ "1" = String n "") \/
     (In ("usb" ++ String n (String Py.nl "")) children /\
      "1" = String n (String Py.nl ""))).
Proof.
  apply (USB_iter_keys sysfs usb ["1"] "1"); [reflexivity | simpl; auto].
Defined.
